(** * Crop transforms of albumentations: parameter sampling

    A shallow embedding of
    [albumentations/augmentations/crops/transforms.py]: the constructors and
    the parameter-sampling methods ([get_params_dependent_on_targets],
    [update_params]) of the crop transforms, followed by the properties of
    the sampled geometry.

    Conventions of the embedding.
    - Python [int] is [Z]; [//] on integers is [Z.div] (floor division).
    - Python [float] is modelled by an exact rational [Q]; [int(x)] truncates
      toward zero, [round(x)] rounds half to even, as in Python 3.
    - [math.log], [math.exp] and [math.sqrt] are parameters of the model.
    - A raised exception is the [inl] of the error monad; the [random]
      module is a stream of draws threaded through the state monad.
    - The base class [DualTransform] is imported, not defined, by the file:
      its [__init__(always_apply, p)] is taken to store its two arguments,
      and its [update_params] is left out of [update_params] below. *)

From Stdlib Require Import ZArith QArith Qround Qminmax List Bool String Lia Lqa.
From ExtLib Require Import Structures.Monad Structures.MonadState Structures.MonadExc.
From ExtLib Require Import Data.Monads.StateMonad Data.Monads.EitherMonad.
Import ListNotations.
Import MonadNotation.
Local Open Scope monad_scope.
Local Open Scope Z_scope.

#[local] Existing Instance Monad_stateT.

(** ** Python numbers *)

Module Py.

(** [int(x)] of a float: truncation toward zero. *)
Definition int (x : Q) : Z := Z.quot (Qnum x) (Zpos (Qden x)).

(** [round(x)] with one argument: nearest integer, ties to the even one. *)
Definition round (x : Q) : Z :=
  let f := Qfloor x in
  let r := (x - inject_Z f)%Q in
  match (r ?= 1 # 2)%Q with
  | Lt => f
  | Gt => f + 1
  | Eq => if Z.even f then f else f + 1
  end.

Definition ltb (x y : Q) : bool := negb (Qle_bool y x).
Definition leb (x y : Q) : bool := Qle_bool x y.

(** [np.clip(x, lo, hi)] on scalars: [minimum(maximum(x, lo), hi)]. *)
Definition clip (x lo hi : Z) : Z := Z.min (Z.max x lo) hi.
Definition clipf (x lo hi : Q) : Q := Qmin (Qmax x lo) hi.

Inductive exn : Type :=
| ValueError (msg : string)
| RuntimeError (msg : string)
| TypeError
| IndexError
| KeyError (key : string)
| ZeroDivisionError.

(** [a / b] on floats. *)
Definition fdiv (a b : Q) : exn + Q :=
  if Qeq_bool b 0 then inl ZeroDivisionError else inr (a / b)%Q.

End Py.

(** ** The [random] module

    The generator is a stream of rationals; each call consumes the next
    element and uses its fractional part as a uniform draw in [[0, 1)].
    Every integer that [randint], [randrange] and [choice] can return, and
    every rational draw of [random], is reached by some stream. *)

Module Random.

(** the generator: a stream of draws and the position of the next one *)
Record rng : Type := mk_rng {
  source : nat -> Q;
  pos : nat
}.

(** the generator after [n] more draws *)
Definition skip (n : nat) (g : rng) : rng := mk_rng (source g) (n + pos g).

Definition M : Type -> Type := stateT rng (sum Py.exn).

Definition run {A} (c : M A) (g : rng) : Py.exn + (A * rng) := runStateT c g.

(** The value computed by [c], without the final generator. *)
Definition eval {A} (c : M A) (g : rng) : Py.exn + A :=
  match run c g with
  | inl e => inl e
  | inr (a, _) => inr a
  end.

Definition frac (q : Q) : Q := (q - inject_Z (Qfloor q))%Q.

(** the uniform draw in [[0, 1)] that the generator [g] gives next *)
Definition draw (g : rng) : Q := frac (source g (pos g)).

(** [random.random()] *)
Definition random : M Q :=
  g <- get ;;
  put (skip 1 g) ;;
  ret (draw g).

(** the integer [floor(u * n)], a uniform index below [n] *)
Definition below (n : Z) : M Z :=
  u <- random ;;
  ret (Qfloor (u * inject_Z n)).

(** [random.randint(a, b)], both ends included *)
Definition randint (a b : Z) : M Z :=
  if b <? a then raise (Py.ValueError "empty range for randrange()")
  else k <- below (b - a + 1) ;; ret (a + k).

(** [random.randrange(start, stop, step)] called with the positional
    arguments [args]. *)
Definition randrange (args : list Z) : M Z :=
  match args with
  | [stop] =>
      if stop <=? 0 then raise (Py.ValueError "empty range for randrange()")
      else below stop
  | [start; stop] =>
      if stop <=? start then raise (Py.ValueError "empty range for randrange()")
      else k <- below (stop - start) ;; ret (start + k)
  | [start; stop; step] =>
      if step =? 0 then raise (Py.ValueError "zero step for randrange()")
      else
        let width := stop - start in
        let n := if 0 <? step then (width + step - 1) / step
                 else (width + step + 1) / step in
        if n <=? 0 then raise (Py.ValueError "empty range for randrange()")
        else k <- below n ;; ret (start + step * k)
  | _ => raise Py.TypeError
  end.

(** [random.uniform(a, b)] *)
Definition uniform (a b : Q) : M Q :=
  u <- random ;;
  ret (a + (b - a) * u)%Q.

(** [random.choice(seq)] *)
Definition choice {A} (seq : list A) : M A :=
  match seq with
  | [] => raise Py.IndexError
  | _ =>
      k <- below (Z.of_nat (List.length seq)) ;;
      match nth_error seq (Z.to_nat k) with
      | Some a => ret a
      | None => raise Py.IndexError
      end
  end.

End Random.

(** a pure computation that may raise, run inside the sampling monad *)
Definition lift {A} (r : Py.exn + A) : Random.M A :=
  match r with inl e => raise e | inr a => ret a end.

(** [for x in xs: ...] collecting the results, left to right *)
Fixpoint mapM {A B} (f : A -> Random.M B) (xs : list A) : Random.M (list B) :=
  match xs with
  | [] => ret []
  | x :: xs' => y <- f x ;; ys <- mapM f xs' ;; ret (y :: ys)
  end.

(** ** CropAndPad *)

Module CropAndPad.

Inductive number : Type :=
| NInt (n : Z)
| NFloat (x : Q).

Definition to_float (n : number) : Q :=
  match n with NInt z => inject_Z z | NFloat x => x end.

(** an entry of a [px] sequence: an [int], or a tuple/list of [int]s *)
Inductive px_entry : Type :=
| PxNum (n : Z)
| PxSeq (l : list Z).

Inductive px_t : Type :=
| PxInt (n : Z)
| PxList (l : list px_entry).

Inductive percent_entry : Type :=
| PcNum (x : Q)
| PcSeq (l : list Q).

Inductive percent_t : Type :=
| PcFloat (x : Q)
| PcList (l : list percent_entry).

Inductive pad_t : Type :=
| PadNum (n : number)
| PadList (l : list number).

Record t : Type := mk {
  px : option px_t;
  percent : option percent_t;
  pad_mode : Z;
  pad_cval : pad_t;
  pad_cval_mask : pad_t;
  keep_size : bool;
  sample_independently : bool;
  interpolation : Z;
  always_apply : bool;
  p : Q
}.

(** [CropAndPad.__init__] *)
Definition __init__ (px : option px_t) (percent : option percent_t)
    (pad_mode : Z) (pad_cval pad_cval_mask : pad_t)
    (keep_size sample_independently : bool) (interpolation : Z)
    (always_apply : bool) (p : Q) : Py.exn + t :=
  match px, percent with
  | None, None => inl (Py.ValueError "px and percent are empty!")
  | Some _, Some _ => inl (Py.ValueError "Only px or percent may be set!")
  | _, _ =>
      inr (mk px percent pad_mode pad_cval pad_cval_mask keep_size
              sample_independently interpolation always_apply p)
  end.

(** [CropAndPad.__prevent_zero] *)
Definition __prevent_zero (val1 val2 max_val : Z) : Z * Z :=
  let regain := Z.abs max_val + 1 in
  let regain1 := regain / 2 in
  let regain2 := regain / 2 in
  let regain1 := if regain1 + regain2 <? regain then regain1 + 1 else regain1 in
  let '(regain1, regain2) :=
    if regain1 >? val1 then
      let diff := regain1 - val1 in (val1, regain2 + diff)
    else if regain2 >? val2 then
      let diff := regain2 - val2 in (regain1 + diff, val2)
    else (regain1, regain2) in
  (val1 - regain1, val2 - regain2).

(** [top, right, bottom, left = seq] *)
Definition unpack4 {A} (seq : list A) : Py.exn + (A * A * A * A) :=
  match seq with
  | [a; b; c; d] => inr (a, b, c, d)
  | _ => inl (Py.ValueError "wrong number of values to unpack")
  end.

(** [CropAndPad._prevent_zero] *)
Definition _prevent_zero (crop_params : list Z) (height width : Z)
  : Py.exn + list Z :=
  match unpack4 crop_params with
  | inl e => inl e
  | inr (top, right_, bottom, left_) =>
      let remaining_height := height - (top + bottom) in
      let remaining_width := width - (left_ + right_) in
      let '(top, bottom) :=
        if remaining_height <? 1 then __prevent_zero top bottom height
        else (top, bottom) in
      let '(left_, right_) :=
        if remaining_width <? 1 then __prevent_zero left_ right_ width
        else (left_, right_) in
      inr [Z.max top 0; Z.max right_ 0; Z.max bottom 0; Z.max left_ 0]
  end.

Definition as_int (e : px_entry) : Py.exn + Z :=
  match e with PxNum n => inr n | PxSeq _ => inl Py.TypeError end.

Definition as_float (e : percent_entry) : Py.exn + Q :=
  match e with PcNum x => inr x | PcSeq _ => inl Py.TypeError end.

(** [CropAndPad._get_px_params] *)
Definition _get_px_params (self : t) : Random.M (list Z) :=
  match px self with
  | None => raise (Py.ValueError "px is not set")
  | Some (PxInt n) => ret [n; n; n; n]
  | Some (PxList [a; b]) =>
      a <- lift (as_int a) ;;
      b <- lift (as_int b) ;;
      if sample_independently self then
        mapM (fun _ : nat => Random.randrange [a; b]) (seq 0 4)
      else
        px <- Random.randrange [a; b] ;;
        ret [px; px; px; px]
  | Some (PxList []) => raise Py.IndexError
  | Some (PxList (PxNum n :: rest)) =>
      mapM (fun e => lift (as_int e)) (PxNum n :: rest)
  | Some (PxList l) =>
      mapM (fun e =>
              match e with
              | PxSeq i => Random.randrange i
              | PxNum _ => raise Py.TypeError
              end) l
  end.

(** [CropAndPad._get_percent_params] *)
Definition _get_percent_params (self : t) : Random.M (list percent_entry) :=
  match percent self with
  | None => raise (Py.ValueError "percent is not set")
  | Some (PcFloat x) => ret [PcNum x; PcNum x; PcNum x; PcNum x]
  | Some (PcList [a; b]) =>
      a <- lift (as_float a) ;;
      b <- lift (as_float b) ;;
      if sample_independently self then
        mapM (fun _ : nat => x <- Random.uniform a b ;; ret (PcNum x)) (seq 0 4)
      else
        px <- Random.uniform a b ;;
        ret [PcNum px; PcNum px; PcNum px; PcNum px]
  | Some (PcList []) => raise Py.IndexError
  | Some (PcList (PcNum x :: rest)) => ret (PcNum x :: rest)
  | Some (PcList l) =>
      mapM (fun e =>
              match e with
              | PcSeq [a; b] => x <- Random.uniform a b ;; ret (PcNum x)
              | _ => raise Py.TypeError
              end) l
  end.

(** [CropAndPad._get_pad_value] *)
Definition _get_pad_value (pad_value : pad_t) : Random.M number :=
  match pad_value with
  | PadNum n => ret n
  | PadList [NInt a; NInt b] => n <- Random.randint a b ;; ret (NInt n)
  | PadList [a; b] =>
      x <- Random.uniform (to_float a) (to_float b) ;; ret (NFloat x)
  | PadList l => Random.choice l
  end.

(** [int(percent_params[i] * dim)] *)
Definition scaled (percent_params : list percent_entry) (i : nat) (dim : Z)
  : Py.exn + Z :=
  match nth_error percent_params i with
  | None => inl Py.IndexError
  | Some (PcNum x) => inr (Py.int (x * inject_Z dim))
  | Some (PcSeq _) => inl Py.TypeError
  end.

Record params : Type := mk_params {
  crop_params : option (list Z);
  pad_params : option (list Z);
  pad_value : option number;
  pad_value_mask : option number;
  result_rows : Z;
  result_cols : Z
}.

(** [x or None] on a list *)
Definition or_None {A} (l : list A) : option (list A) :=
  match l with [] => None | _ => Some l end.

(** [CropAndPad.get_params_dependent_on_targets], for an image of shape
    [(height, width)] *)
Definition get_params_dependent_on_targets (self : t) (height width : Z)
  : Random.M params :=
  new_params <-
    match px self with
    | Some _ => _get_px_params self
    | None =>
        percent_params <- _get_percent_params self ;;
        a <- lift (scaled percent_params 0 height) ;;
        b <- lift (scaled percent_params 1 width) ;;
        c <- lift (scaled percent_params 2 height) ;;
        d <- lift (scaled percent_params 3 width) ;;
        ret [a; b; c; d]
    end ;;
  let pad_params := map (fun i => Z.max i 0) new_params in
  crop_params <-
    lift (_prevent_zero (map (fun i => - Z.min i 0) new_params) height width) ;;
  '(top, right_, bottom, left_) <- lift (unpack4 crop_params) ;;
  let x1 := left_ in
  let y1 := top in
  let x2 := width - right_ in
  let y2 := height - bottom in
  let crop_params := [x1; y1; x2; y2] in
  let result_rows := y2 - y1 in
  let result_cols := x2 - x1 in
  let crop_params :=
    if (result_cols =? width) && (result_rows =? height) then []
    else crop_params in
  '(top, right_, bottom, left_) <- lift (unpack4 pad_params) ;;
  let pad_params := [top; bottom; left_; right_] in
  let padded := existsb (fun i => negb (i =? 0)) pad_params in
  let result_rows := if padded then result_rows + (top + bottom) else result_rows in
  let result_cols := if padded then result_cols + (left_ + right_) else result_cols in
  let pad_params := if padded then pad_params else [] in
  pad_value <- _get_pad_value (pad_cval self) ;;
  pad_value_mask <- _get_pad_value (pad_cval_mask self) ;;
  ret (mk_params (or_None crop_params) (or_None pad_params)
         (Some pad_value) (Some pad_value_mask) result_rows result_cols).

End CropAndPad.

(** ** RandomCropFromBorders *)

Module RandomCropFromBorders.

Record t : Type := mk {
  crop_left : Q;
  crop_right : Q;
  crop_top : Q;
  crop_bottom : Q;
  always_apply : bool;
  p : Q
}.

(** [RandomCropFromBorders.__init__]: the fields are stored as given. *)
Definition __init__ (crop_left crop_right crop_top crop_bottom : Q)
    (always_apply : bool) (p : Q) : Py.exn + t :=
  inr (mk crop_left crop_right crop_top crop_bottom always_apply p).

Record params : Type := mk_params {
  x_min : Z;
  x_max : Z;
  y_min : Z;
  y_max : Z
}.

(** [RandomCropFromBorders.get_params_dependent_on_targets], for an image
    with [img.shape[0] = rows] and [img.shape[1] = cols] *)
Definition get_params_dependent_on_targets (self : t) (rows cols : Z)
  : Random.M params :=
  x_min <- Random.randint 0 (Py.int (crop_left self * inject_Z cols)) ;;
  x_max <- Random.randint
             (Z.max (x_min + 1) (Py.int ((1 - crop_right self) * inject_Z cols)))
             cols ;;
  y_min <- Random.randint 0 (Py.int (crop_top self * inject_Z rows)) ;;
  y_max <- Random.randint
             (Z.max (y_min + 1) (Py.int ((1 - crop_bottom self) * inject_Z rows)))
             rows ;;
  ret (mk_params x_min x_max y_min y_max).

End RandomCropFromBorders.

(** ** RandomCropNearBBox *)

Module RandomCropNearBBox.

(** [ScaleFloatType]: a single float or a pair of floats *)
Inductive scale_t : Type :=
| Scalar (x : Q)
| Pair (a b : Q).

(** Modelled from the spec: [to_tuple(max_part_shift, low=max_part_shift)],
    of [albumentations.core.transforms_interface], is imported by this file
    and not defined in it. The spec has a "max_part_shift per axis"; by the
    docstring of the class a single float [x] stands for the range [(x, x)],
    and a pair is kept as it is. *)
Definition to_tuple (param : scale_t) : Q * Q :=
  match param with
  | Scalar x => (x, x)
  | Pair a b => (a, b)
  end.

(** [min(t)] and [max(t)] of a pair *)
Definition min2 (t : Q * Q) : Q := if Py.ltb (snd t) (fst t) then snd t else fst t.
Definition max2 (t : Q * Q) : Q := if Py.ltb (fst t) (snd t) then snd t else fst t.

Record t : Type := mk {
  max_part_shift : Q * Q;
  cropping_bbox_key : string;
  always_apply : bool;
  p : Q
}.

(** [RandomCropNearBBox.__init__] *)
Definition __init__ (max_part_shift : scale_t) (cropping_box_key : string)
    (always_apply : bool) (p : Q) : Py.exn + t :=
  let self := mk (to_tuple max_part_shift) cropping_box_key always_apply p in
  if Py.ltb (min2 (RandomCropNearBBox.max_part_shift self)) 0
     || Py.ltb 1 (max2 (RandomCropNearBBox.max_part_shift self))
  then inl (Py.ValueError "Invalid max_part_shift")
  else inr self.

Definition bbox : Type := (Z * Z * Z * Z)%type.

(** [params[key]] *)
Fixpoint lookup (params : list (string * bbox)) (key : string) : Py.exn + bbox :=
  match params with
  | [] => inl (Py.KeyError key)
  | (k, v) :: rest => if String.eqb k key then inr v else lookup rest key
  end.

Record params : Type := mk_params {
  x_min : Z;
  x_max : Z;
  y_min : Z;
  y_max : Z
}.

(** [RandomCropNearBBox.get_params_dependent_on_targets] *)
Definition get_params_dependent_on_targets (self : t)
    (params : list (string * bbox)) : Random.M RandomCropNearBBox.params :=
  '(b0, b1, b2, b3) <- lift (lookup params (cropping_bbox_key self)) ;;
  let h_max_shift := Py.round (inject_Z (b3 - b1) * fst (max_part_shift self)) in
  let w_max_shift := Py.round (inject_Z (b2 - b0) * snd (max_part_shift self)) in
  dx1 <- Random.randint (- w_max_shift) w_max_shift ;;
  let x_min := b0 - dx1 in
  dx2 <- Random.randint (- w_max_shift) w_max_shift ;;
  let x_max := b2 + dx2 in
  dy1 <- Random.randint (- h_max_shift) h_max_shift ;;
  let y_min := b1 - dy1 in
  dy2 <- Random.randint (- h_max_shift) h_max_shift ;;
  let y_max := b3 + dy2 in
  let x_min := Z.max 0 x_min in
  let y_min := Z.max 0 y_min in
  ret (mk_params x_min x_max y_min y_max).

End RandomCropNearBBox.

(** ** RandomSizedCrop *)

Module RandomSizedCrop.

Record t : Type := mk {
  min_max_height : Z * Z;
  height : Z;
  width : Z;
  w2h_ratio : Q;
  interpolation : Z;
  always_apply : bool;
  p : Q
}.

(** [RandomSizedCrop.__init__] (with [_BaseRandomSizedCrop.__init__]) *)
Definition __init__ (min_max_height : Z * Z) (height width : Z) (w2h_ratio : Q)
    (interpolation : Z) (always_apply : bool) (p : Q) : Py.exn + t :=
  inr (mk min_max_height height width w2h_ratio interpolation always_apply p).

Record params : Type := mk_params {
  h_start : Q;
  w_start : Q;
  crop_height : Z;
  crop_width : Z
}.

(** [RandomSizedCrop.get_params] *)
Definition get_params (self : t) : Random.M params :=
  crop_height <- Random.randint (fst (min_max_height self)) (snd (min_max_height self)) ;;
  h_start <- Random.random ;;
  w_start <- Random.random ;;
  ret (mk_params h_start w_start crop_height
         (Py.int (inject_Z crop_height * w2h_ratio self))).

End RandomSizedCrop.

(** ** RandomResizedCrop *)

(** The functions of the [math] module used below; each may raise
    ([ValueError] outside its domain, [OverflowError]). *)
Module Math.

Record t : Type := mk {
  log : Q -> Py.exn + Q;
  exp : Q -> Py.exn + Q;
  sqrt : Q -> Py.exn + Q
}.

End Math.

Module RandomResizedCrop.

Record t : Type := mk {
  height : Z;
  width : Z;
  scale : Q * Q;
  ratio : Q * Q;
  interpolation : Z;
  always_apply : bool;
  p : Q
}.

(** [RandomResizedCrop.__init__] (with [_BaseRandomSizedCrop.__init__]) *)
Definition __init__ (height width : Z) (scale ratio : Q * Q)
    (interpolation : Z) (always_apply : bool) (p : Q) : Py.exn + t :=
  inr (mk height width scale ratio interpolation always_apply p).

Record params : Type := mk_params {
  crop_height : Z;
  crop_width : Z;
  h_start : Q;
  w_start : Q
}.

(** the literal [1e-10] *)
Definition eps : Q := 1 # 10000000000.

(** [min(self.ratio)], [max(self.ratio)] *)
Definition min2 (t : Q * Q) : Q := if Py.ltb (snd t) (fst t) then snd t else fst t.
Definition max2 (t : Q * Q) : Q := if Py.ltb (fst t) (snd t) then snd t else fst t.

(** the dictionary returned on both paths *)
Definition descriptor (rows cols height width i j : Z) : Random.M params :=
  h_start <- lift (Py.fdiv (inject_Z i * 1) (inject_Z (rows - height) + eps)) ;;
  w_start <- lift (Py.fdiv (inject_Z j * 1) (inject_Z (cols - width) + eps)) ;;
  ret (mk_params height width h_start w_start).

Section Sampling.

Variable math : Math.t.
Variable self : t.
(** [img.shape[0]] and [img.shape[1]] *)
Variables rows cols : Z.

(** One pass through the body of [for _ in range(10)]: [Some] is the
    [return] inside the loop, [None] falls through to the next pass. *)
Definition attempt (area : Z) : Random.M (option params) :=
  u <- Random.uniform (fst (scale self)) (snd (scale self)) ;;
  let target_area := (u * inject_Z area)%Q in
  l0 <- lift (Math.log math (fst (ratio self))) ;;
  l1 <- lift (Math.log math (snd (ratio self))) ;;
  v <- Random.uniform l0 l1 ;;
  aspect_ratio <- lift (Math.exp math v) ;;
  sw <- lift (Math.sqrt math (target_area * aspect_ratio)) ;;
  let width := Py.round sw in
  q <- lift (Py.fdiv target_area aspect_ratio) ;;
  sh <- lift (Math.sqrt math q) ;;
  let height := Py.round sh in
  if (0 <? width) && (width <=? cols) && ((0 <? height) && (height <=? rows)) then
    i <- Random.randint 0 (rows - height) ;;
    j <- Random.randint 0 (cols - width) ;;
    d <- descriptor rows cols height width i j ;;
    ret (Some d)
  else ret None.

Fixpoint attempts (n : nat) (area : Z) : Random.M (option params) :=
  match n with
  | O => ret None
  | S n' =>
      r <- attempt area ;;
      match r with
      | Some d => ret (Some d)
      | None => attempts n' area
      end
  end.

(** the code after the loop: "Fallback to central crop" *)
Definition central_crop : Random.M params :=
  in_ratio <- lift (Py.fdiv (inject_Z cols) (inject_Z rows)) ;;
  '(width, height) <-
    (if Py.ltb in_ratio (min2 (ratio self)) then
       let width := cols in
       q <- lift (Py.fdiv (inject_Z width) (min2 (ratio self))) ;;
       ret (width, Py.round q)
     else if Py.ltb (max2 (ratio self)) in_ratio then
       let height := rows in
       ret (Py.round (inject_Z height * max2 (ratio self)), height)
     else ret (cols, rows)) ;;
  let i := (rows - height) / 2 in
  let j := (cols - width) / 2 in
  descriptor rows cols height width i j.

(** [RandomResizedCrop.get_params_dependent_on_targets] *)
Definition get_params_dependent_on_targets : Random.M params :=
  let area := rows * cols in
  r <- attempts 10 area ;;
  match r with
  | Some d => ret d
  | None => central_crop
  end.

(** the [k]-th pass of the loop, which starts after the [2 * k] draws of
    the passes before it, falls through *)
Definition rejected (g : Random.rng) (k : nat) : bool :=
  match Random.eval (attempt (rows * cols)) (Random.skip (2 * k) g) with
  | inr None => true
  | _ => false
  end.

(** all ten passes fall through *)
Definition all_rejected (g : Random.rng) : bool :=
  forallb (rejected g) (seq 0 10).

End Sampling.

End RandomResizedCrop.

(** ** BBoxSafeRandomCrop *)

Module BBoxSafeRandomCrop.

(** a normalized box [(x_min, y_min, x_max, y_max)] *)
Definition box : Type := (Q * Q * Q * Q)%type.

Record t : Type := mk {
  erosion_rate : Q;
  always_apply : bool;
  p : Q
}.

(** [BBoxSafeRandomCrop.__init__] *)
Definition __init__ (erosion_rate : Q) (always_apply : bool) (p : Q)
  : Py.exn + t :=
  inr (mk erosion_rate always_apply p).

Record params : Type := mk_params {
  h_start : Q;
  w_start : Q;
  crop_height : Z;
  crop_width : Z
}.

Section WithUnion.

(** [union_of_bboxes(width, height, bboxes, erosion_rate)], imported from
    [albumentations.core.bbox_utils] *)
Variable union_of_bboxes : Z -> Z -> list box -> Q -> box.

(** [BBoxSafeRandomCrop.get_params_dependent_on_targets], for an image with
    [shape[:2] = (img_h, img_w)] *)
Definition get_params_dependent_on_targets (self : t) (img_h img_w : Z)
    (bboxes : list box) : Random.M params :=
  match bboxes with
  | [] =>
      let erosive_h := Py.int (inject_Z img_h * (1 - erosion_rate self)) in
      crop_height <-
        (if img_h <=? erosive_h then ret img_h
         else Random.randint erosive_h img_h) ;;
      h_start <- Random.random ;;
      w_start <- Random.random ;;
      q <- lift (Py.fdiv (inject_Z (crop_height * img_w)) (inject_Z img_h)) ;;
      ret (mk_params h_start w_start crop_height (Py.int q))
  | _ =>
      let '(x, y, x2, y2) := union_of_bboxes img_w img_h bboxes (erosion_rate self) in
      r <- Random.random ;;
      let bx := (x * r)%Q in
      r <- Random.random ;;
      let by_ := (y * r)%Q in
      r <- Random.random ;;
      let bx2 := (x2 + (1 - x2) * r)%Q in
      r <- Random.random ;;
      let by2 := (y2 + (1 - y2) * r)%Q in
      let bw := (bx2 - bx)%Q in
      let bh := (by2 - by_)%Q in
      let crop_height :=
        if Py.leb 1 bh then img_h else Py.int (inject_Z img_h * bh) in
      let crop_width :=
        if Py.leb 1 bw then img_w else Py.int (inject_Z img_w * bw) in
      let h_start :=
        Py.clipf (if Py.leb 1 bh then 0 else by_ / (1 - bh))%Q 0 1 in
      let w_start :=
        Py.clipf (if Py.leb 1 bw then 0 else bx / (1 - bw))%Q 0 1 in
      ret (mk_params h_start w_start crop_height crop_width)
  end.

End WithUnion.

(** Modelled from the spec: [union_of_bboxes] is not defined in this file.
    The spec describes it as returning "the eroded union rectangle in
    normalized coordinates", the erosion rate being the "fraction by which
    a bounding-box union rectangle is shrunk": the smallest rectangle around
    all boxes, each side moved inwards by [erosion_rate] times the extent.
    With [erosion_rate = 0] it is the plain union. *)
Definition union_of_bboxes (width height : Z) (bboxes : list box)
    (erosion_rate : Q) : box :=
  match bboxes with
  | [] => (0, 0, 0, 0)%Q
  | b :: rest =>
      let '(x, y, x2, y2) :=
        fold_left
          (fun acc b' =>
             let '(x, y, x2, y2) := acc in
             let '(x', y', x2', y2') := b' in
             (Qmin x x', Qmin y y', Qmax x2 x2', Qmax y2 y2'))
          rest b in
      let w := (x2 - x)%Q in
      let h := (y2 - y)%Q in
      (x + erosion_rate * w, y + erosion_rate * h,
       x2 - erosion_rate * w, y2 - erosion_rate * h)%Q
  end.

(** Modelled from the spec: the crop rectangle that the raster collaborator
    ([F.random_crop], not in this file) extracts for a descriptor. The spec
    gives it for the fixed random crop: "scale draws by (rows-h) and
    (cols-w) to get integer offsets", "offset = floor(draw x (10-4))".
    The result is [(x1, y1, x2, y2)] in pixels. *)
Definition get_random_crop_coords (height width crop_height crop_width : Z)
    (h_start w_start : Q) : Z * Z * Z * Z :=
  let y1 := Qfloor (h_start * inject_Z (height - crop_height)) in
  let y2 := y1 + crop_height in
  let x1 := Qfloor (w_start * inject_Z (width - crop_width)) in
  let x2 := x1 + crop_width in
  (x1, y1, x2, y2).

(** the crop rectangle of a descriptor, in normalized coordinates *)
Definition crop_bounds (img_h img_w : Z) (d : params) : box :=
  let '(x1, y1, x2, y2) :=
    get_random_crop_coords img_h img_w (crop_height d) (crop_width d)
      (h_start d) (w_start d) in
  (inject_Z x1 / inject_Z img_w, inject_Z y1 / inject_Z img_h,
   inject_Z x2 / inject_Z img_w, inject_Z y2 / inject_Z img_h)%Q.

(** [outer] fully contains [inner] *)
Definition contains (outer inner : box) : bool :=
  let '(ox, oy, ox2, oy2) := outer in
  let '(x, y, x2, y2) := inner in
  Py.leb ox x && Py.leb oy y && Py.leb x2 ox2 && Py.leb y2 oy2.

End BBoxSafeRandomCrop.

(** ** CropNonEmptyMaskIfExists *)

Module CropNonEmptyMaskIfExists.

(** a mask: an integer array of shape [(H, W)] or [(H, W, C)] *)
Inductive ndarray : Type :=
| Arr2 (a : list (list Z))
| Arr3 (a : list (list (list Z))).

Definition len {A} (l : list A) : Z := Z.of_nat (List.length l).

(** [mask.shape[:2]] *)
Definition shape2 (mask : ndarray) : Z * Z :=
  match mask with
  | Arr2 a => (len a, len (hd [] a))
  | Arr3 a => (len a, len (hd [] a))
  end.

(** every row has the width of the first one, as in any array *)
Definition rectangular (mask : ndarray) : bool :=
  match mask with
  | Arr2 a => forallb (fun row => len row =? snd (shape2 mask)) a
  | Arr3 a => forallb (fun row => len row =? snd (shape2 mask)) a
  end.

Record t : Type := mk {
  height : Z;
  width : Z;
  ignore_values : option (list Z);
  ignore_channels : option (list Z);
  always_apply : bool;
  p : Q
}.

(** [CropNonEmptyMaskIfExists.__init__]; both lists are lists by their
    type here, so neither [isinstance] check can fail. *)
Definition __init__ (height width : Z) (ignore_values ignore_channels : option (list Z))
    (always_apply : bool) (p : Q) : Py.exn + t :=
  inr (mk height width ignore_values ignore_channels always_apply p).

Definition isin (v : Z) (vals : list Z) : bool := existsb (Z.eqb v) vals.

(** [np.where(np.isin(mask, vals), 0, mask)] *)
Definition zero_out (vals : list Z) (mask : ndarray) : ndarray :=
  let f v := if isin v vals then 0 else v in
  match mask with
  | Arr2 a => Arr2 (map (map f) a)
  | Arr3 a => Arr3 (map (map (map f)) a)
  end.

(** [mask.shape[-1]] of a three-dimensional mask *)
Definition channels (a : list (list (list Z))) : nat :=
  List.length (hd [] (hd [] a)).

(** [np.take(mask, target_channels, axis=-1)] *)
Definition take (a : list (list (list Z))) (target_channels : list nat)
  : list (list (list Z)) :=
  map (map (fun px => map (fun ch => nth ch px 0) target_channels)) a.

(** [CropNonEmptyMaskIfExists._preprocess_mask] *)
Definition _preprocess_mask (self : t) (mask : ndarray) : Py.exn + ndarray :=
  let '(mask_height, mask_width) := shape2 mask in
  let mask :=
    match ignore_values self with
    | Some vals => zero_out vals mask
    | None => mask
    end in
  match
    match mask, ignore_channels self with
    | Arr3 a, Some ign =>
        let target_channels :=
          filter (fun ch => negb (isin (Z.of_nat ch) ign)) (seq 0 (channels a)) in
        (* an empty index array has a float dtype, which [np.take] refuses *)
        match target_channels with
        | [] => inl Py.TypeError
        | _ => inr (Arr3 (take a target_channels))
        end
    | _, _ => inr mask
    end
  with
  | inl e => inl e
  | inr mask =>
      if (mask_height <? height self) || (mask_width <? width self) then
        inl (Py.ValueError "Crop size is larger than image")
      else inr mask
  end.

Fixpoint zip_with {A} (f : A -> A -> Py.exn + A) (xs ys : list A)
  : Py.exn + list A :=
  match xs, ys with
  | [], [] => inr []
  | x :: xs', y :: ys' =>
      match f x y, zip_with f xs' ys' with
      | inr z, inr zs => inr (z :: zs)
      | inl e, _ => inl e
      | _, inl e => inl e
      end
  | _, _ => inl (Py.ValueError "operands could not be broadcast together")
  end.

(** [mask |= other] for arrays of one shape; arrays of different shapes
    are refused (broadcasting is not modelled). *)
Definition ior (mask other : ndarray) : Py.exn + ndarray :=
  let or0 x y : Py.exn + Z := inr (Z.lor x y) in
  match mask, other with
  | Arr2 a, Arr2 b =>
      match zip_with (zip_with or0) a b with
      | inr c => inr (Arr2 c)
      | inl e => inl e
      end
  | Arr3 a, Arr3 b =>
      match zip_with (zip_with (zip_with or0)) a b with
      | inr c => inr (Arr3 c)
      | inl e => inl e
      end
  | _, _ => inl (Py.ValueError "operands could not be broadcast together")
  end.

(** the keyword arguments read by [update_params] *)
Record kwargs : Type := mk_kwargs {
  kw_mask : option ndarray;
  kw_masks : option (list ndarray)
}.

(** [for m in masks[1:]: mask |= self._preprocess_mask(m)] *)
Fixpoint union_masks (self : t) (mask : ndarray) (rest : list ndarray)
  : Py.exn + ndarray :=
  match rest with
  | [] => inr mask
  | m :: rest' =>
      match _preprocess_mask self m with
      | inl e => inl e
      | inr m' =>
          match ior mask m' with
          | inl e => inl e
          | inr mask' => union_masks self mask' rest'
          end
      end
  end.

(** the first statement of [update_params]: the mask the crop is sampled
    from *)
Definition preprocessed (self : t) (kw : kwargs) : Py.exn + ndarray :=
  match kw_mask kw with
  | Some m => _preprocess_mask self m
  | None =>
      match kw_masks kw with
      | Some (m0 :: rest) =>
          match _preprocess_mask self m0 with
          | inl e => inl e
          | inr mask => union_masks self mask rest
          end
      | _ => inl (Py.RuntimeError "Can not find mask for CropNonEmptyMaskIfExists")
      end
  end.

Definition nonzero (v : Z) : bool := negb (v =? 0).

(** [mask.any()] *)
Definition any (mask : ndarray) : bool :=
  match mask with
  | Arr2 a => existsb (existsb nonzero) a
  | Arr3 a => existsb (existsb (existsb nonzero)) a
  end.

(** [mask.sum(axis=-1) if mask.ndim == 3 else mask] *)
Definition flat (mask : ndarray) : list (list Z) :=
  match mask with
  | Arr2 a => a
  | Arr3 a => map (map (fun px => fold_left Z.add px 0)) a
  end.

(** the column indices of the non-zero entries of a row, from column [x] on *)
Fixpoint row_nonzero (x : Z) (row : list Z) : list Z :=
  match row with
  | [] => []
  | v :: row' =>
      if nonzero v then x :: row_nonzero (x + 1) row' else row_nonzero (x + 1) row'
  end.

Fixpoint argwhere_from (y : Z) (a : list (list Z)) : list (Z * Z) :=
  match a with
  | [] => []
  | row :: a' => map (fun x => (y, x)) (row_nonzero 0 row) ++ argwhere_from (y + 1) a'
  end.

(** [np.argwhere(mask)] of a two-dimensional mask: the [(y, x)] of its
    non-zero entries in row-major order *)
Definition argwhere (a : list (list Z)) : list (Z * Z) := argwhere_from 0 a.

Record params : Type := mk_params {
  x_min : Z;
  x_max : Z;
  y_min : Z;
  y_max : Z
}.

(** [CropNonEmptyMaskIfExists.update_params]: the four entries it adds to
    [params] *)
Definition update_params (self : t) (kw : kwargs) : Random.M params :=
  mask <- lift (preprocessed self kw) ;;
  let '(mask_height, mask_width) := shape2 mask in
  '(x_min, y_min) <-
    (if any mask then
       let non_zero_yx := argwhere (flat mask) in
       '(y, x) <- Random.choice non_zero_yx ;;
       dx <- Random.randint 0 (width self - 1) ;;
       let x_min := x - dx in
       dy <- Random.randint 0 (height self - 1) ;;
       let y_min := y - dy in
       let x_min := Py.clip x_min 0 (mask_width - width self) in
       let y_min := Py.clip y_min 0 (mask_height - height self) in
       ret (x_min, y_min)
     else
       x_min <- Random.randint 0 (mask_width - width self) ;;
       y_min <- Random.randint 0 (mask_height - height self) ;;
       ret (x_min, y_min)) ;;
  let x_max := x_min + width self in
  let y_max := y_min + height self in
  ret (mk_params x_min x_max y_min y_max).

End CropNonEmptyMaskIfExists.

(** ** Rational approximations of [math.log], [math.exp], [math.sqrt]

    Used to run the model on concrete inputs; the statements below hold for
    every [Math.t]. Results are cut to twelve decimals. *)

Module Approx.

Definition digits : Z := 1000000000000.

Definition cut (x : Q) : Q := Qred (Qfloor (x * inject_Z digits) # 1000000000000).

(** [sum_{k < n} x^k / k!], from the term [t = x^i / i!] on *)
Fixpoint exp_series (n : nat) (x t : Q) (i : Z) : Q :=
  match n with
  | O => 0
  | S n' => (t + exp_series n' x (cut (t * x / inject_Z (i + 1))) (i + 1))%Q
  end.

Definition exp (x : Q) : Py.exn + Q := inr (cut (exp_series 40 x 1 0)).

(** [2 * sum_{k < n} z^(2k+1) / (2k+1)], from the power [t = z^(2i+1)] on *)
Fixpoint atanh_series (n : nat) (z2 t : Q) (i : Z) : Q :=
  match n with
  | O => 0
  | S n' => (t / inject_Z (2 * i + 1) + atanh_series n' z2 (cut (t * z2)) (i + 1))%Q
  end.

Definition log (x : Q) : Py.exn + Q :=
  if Py.leb x 0 then inl (Py.ValueError "math domain error")
  else
    let z := cut ((x - 1) / (x + 1)) in
    inr (cut (2 * atanh_series 60 (cut (z * z)) z 0)).

Definition sqrt (x : Q) : Py.exn + Q :=
  if Py.ltb x 0 then inl (Py.ValueError "math domain error")
  else inr (Z.sqrt (Qfloor (x * inject_Z (digits * digits))) # 1000000000000).

Definition math : Math.t := Math.mk log exp sqrt.

End Approx.

(** ** The rebalancing as the specification words it

    Definitions that follow the wording of the specification rather than the
    code, for comparison with [CropAndPad.__prevent_zero]. *)

Module Documented.

(** "split it as evenly as possible between the two sides (extra unit to the
    first side when odd)" *)
Definition split (regain : Z) : Z * Z := ((regain + 1) / 2, regain / 2).

(** "reduce each side's crop amount by its regained portion", a portion that
    a side cannot give back being "shifted to the other side" *)
Definition rebalance (regain val1 val2 : Z) : Z * Z :=
  let '(portion1, portion2) := split regain in
  if val1 <? portion1 then (0, val2 - (regain - val1))
  else if val2 <? portion2 then (val1 - (regain - val2), 0)
  else (val1 - portion1, val2 - portion2).

(** "regain = |original combined crop on that axis| + 1" *)
Definition regain (val1 val2 : Z) : Z := Z.abs (val1 + val2) + 1.

(** one axis of the zero-avoidance rule, with that regain; no side is left
    negative *)
Definition axis (val1 val2 extent : Z) : Z * Z :=
  if extent - (val1 + val2) <? 1 then
    let '(v1, v2) := rebalance (regain val1 val2) val1 val2 in
    (Z.max v1 0, Z.max v2 0)
  else (val1, val2).

(** the rule on [top, right, bottom, left] *)
Definition prevent_zero (top right_ bottom left_ height width : Z) : list Z :=
  let '(top, bottom) := axis top bottom height in
  let '(left_, right_) := axis left_ right_ width in
  [top; right_; bottom; left_].

End Documented.

(** ** Parts of the code that the statements name *)

(** the statement that binds [new_params] in
    [CropAndPad.get_params_dependent_on_targets] *)
Definition new_params (self : CropAndPad.t) (height width : Z)
  : Random.M (list Z) :=
  match CropAndPad.px self with
  | Some _ => CropAndPad._get_px_params self
  | None =>
      percent_params <- CropAndPad._get_percent_params self ;;
      a <- lift (CropAndPad.scaled percent_params 0 height) ;;
      b <- lift (CropAndPad.scaled percent_params 1 width) ;;
      c <- lift (CropAndPad.scaled percent_params 2 height) ;;
      d <- lift (CropAndPad.scaled percent_params 3 width) ;;
      ret [a; b; c; d]
  end.

(** every entry of a mask, in row-major order *)
Definition elements (mask : CropNonEmptyMaskIfExists.ndarray) : list Z :=
  match mask with
  | CropNonEmptyMaskIfExists.Arr2 a => List.concat a
  | CropNonEmptyMaskIfExists.Arr3 a => List.concat (map (@List.concat Z) a)
  end.

(** ** Inputs of the examples *)

(** a generator: the draws [0, 1/7, 2/7, ...] *)
Definition sevenths : Random.rng := Random.mk_rng (fun n => Z.of_nat n # 7) 0.

(** [RandomResizedCrop(32, 32, scale=scale, ratio=ratio)] *)
Definition resized_crop (scale ratio : Q * Q) : RandomResizedCrop.t :=
  RandomResizedCrop.mk 32 32 scale ratio 1 false 1.

(** a box over the pixels 8..12 of both axes of a 16x16 image *)
Definition aligned_box : BBoxSafeRandomCrop.box := (1 # 2, 1 # 2, 3 # 4, 3 # 4)%Q.

(** a generator whose first two draws are 1/16 and whose other draws are 0 *)
Definition sixteenths : Random.rng :=
  Random.mk_rng (fun n => if (n <? 2)%nat then 1 # 16 else 0)%Q 0.

(** a mask of 3 rows by 4 columns with one foreground pixel, at row 1 and
    column 2 *)
Definition one_pixel_mask : CropNonEmptyMaskIfExists.ndarray :=
  CropNonEmptyMaskIfExists.Arr2 [[0; 0; 0; 0]; [0; 0; 5; 0]; [0; 0; 0; 0]].

(** [CropNonEmptyMaskIfExists(height=2, width=2)] called with
    [mask=one_pixel_mask] *)
Definition crop_2x2 : CropNonEmptyMaskIfExists.t :=
  CropNonEmptyMaskIfExists.mk 2 2 None None false 1.



(** [CropAndPad(px=n)] with the default arguments *)
Definition constant_px (n : Z) : CropAndPad.t :=
  CropAndPad.mk (Some (CropAndPad.PxInt n)) None 0
    (CropAndPad.PadNum (CropAndPad.NInt 0)) (CropAndPad.PadNum (CropAndPad.NInt 0))
    true true 1 false 1.

(** a box that ends between two pixels of a 10x10 image *)
Definition fractional_box : BBoxSafeRandomCrop.box := (0, 0, 3 # 4, 3 # 4)%Q.

(** a generator whose draws are all 0 *)
Definition zeros : Random.rng := Random.mk_rng (fun _ => 0%Q) 0.

(** [CropAndPad(percent=x)] with the default arguments *)
Definition constant_percent (x : Q) : CropAndPad.t :=
  CropAndPad.mk None (Some (CropAndPad.PcFloat x)) 0
    (CropAndPad.PadNum (CropAndPad.NInt 0)) (CropAndPad.PadNum (CropAndPad.NInt 0))
    true true 1 false 1.

(** [CropAndPad(px=(a, b))] with the default arguments *)
Definition range_px (a b : Z) : CropAndPad.t :=
  CropAndPad.mk (Some (CropAndPad.PxList [CropAndPad.PxNum a; CropAndPad.PxNum b])) None 0
    (CropAndPad.PadNum (CropAndPad.NInt 0)) (CropAndPad.PadNum (CropAndPad.NInt 0))
    true true 1 false 1.

(** [CropAndPad(percent=(a, b))] with the default arguments *)
Definition range_percent (a b : Q) : CropAndPad.t :=
  CropAndPad.mk None
    (Some (CropAndPad.PcList [CropAndPad.PcNum a; CropAndPad.PcNum b])) 0
    (CropAndPad.PadNum (CropAndPad.NInt 0)) (CropAndPad.PadNum (CropAndPad.NInt 0))
    true true 1 false 1.

(** [RandomCropFromBorders(0, 0, 0, 0)] *)
Definition no_border_crop : RandomCropFromBorders.t :=
  RandomCropFromBorders.mk 0 0 0 0 false 1.

(** [RandomSizedCrop((20, 30), 64, 64, w2h_ratio=0.75)] *)
Definition sized_crop : RandomSizedCrop.t :=
  RandomSizedCrop.mk (20, 30) 64 64 (3 # 4) 1 false 1.

(** a [RandomCropNearBBox] with [max_part_shift = (0.3, 0.3)] *)
Definition near_bbox : RandomCropNearBBox.t :=
  RandomCropNearBBox.mk (3 # 10, 3 # 10)%Q "cropping_bbox" false 1.


(** [CropNonEmptyMaskIfExists(height=2, width=2, ignore_values=[5])] *)
Definition ignoring_crop : CropNonEmptyMaskIfExists.t :=
  CropNonEmptyMaskIfExists.mk 2 2 (Some [5]) None false 1.

(** a mask of 3 rows by 4 columns with one foreground pixel, at row 0 and
    column 0 *)
Definition corner_mask : CropNonEmptyMaskIfExists.ndarray :=
  CropNonEmptyMaskIfExists.Arr2 [[1; 0; 0; 0]; [0; 0; 0; 0]; [0; 0; 0; 0]].

(** a call with [masks=[one_pixel_mask, corner_mask]] and no [mask] *)
Definition two_masks : CropNonEmptyMaskIfExists.kwargs :=
  CropNonEmptyMaskIfExists.mk_kwargs None (Some [one_pixel_mask; corner_mask]).

(** a call with neither [mask] nor [masks] *)
Definition no_masks : CropNonEmptyMaskIfExists.kwargs :=
  CropNonEmptyMaskIfExists.mk_kwargs None None.

(** [CropNonEmptyMaskIfExists(height=1, width=1)] *)
Definition crop_1x1 : CropNonEmptyMaskIfExists.t :=
  CropNonEmptyMaskIfExists.mk 1 1 None None false 1.

(** a mask of 2 rows by 2 columns with two channels; the pixel at row 0 and
    column 1 is foreground *)
Definition two_channel_mask : CropNonEmptyMaskIfExists.ndarray :=
  CropNonEmptyMaskIfExists.Arr3 [[[0; 0]; [1; 2]]; [[0; 0]; [0; 0]]].

(** a mask of one pixel whose two channels sum to 0 *)
Definition cancelling_mask : CropNonEmptyMaskIfExists.ndarray :=
  CropNonEmptyMaskIfExists.Arr3 [[[1; -1]]].

(** * Properties *)

(** ** Python numbers *)

Lemma Qfloor_lower z x : (inject_Z z <= x)%Q -> z <= Qfloor x.
Proof.
  intros H. rewrite <- (Qfloor_Z z). now apply Qfloor_resp_le.
Qed.

Lemma Qfloor_upper z x : (x < inject_Z z)%Q -> Qfloor x < z.
Proof.
  intros H. rewrite Zlt_Qlt.
  eapply Qle_lt_trans; [apply Qfloor_le | exact H].
Qed.


Lemma int_floor x : (0 <= x)%Q -> Py.int x = Qfloor x.
Proof.
  intros H. destruct x as [n d]. unfold Py.int, Qfloor. simpl.
  apply Z.quot_div_nonneg; [| lia].
  unfold Qle in H. simpl in H. lia.
Qed.

Lemma round_zero x : (x == 0)%Q -> Py.round x = 0.
Proof.
  intros H. unfold Py.round.
  assert (Hf : Qfloor x = 0) by (rewrite H; reflexivity).
  rewrite Hf.
  assert (Hc : ((x - inject_Z 0) ?= 1 # 2)%Q = Lt).
  { rewrite <- Qlt_alt. rewrite H. reflexivity. }
  now rewrite Hc.
Qed.




Lemma ltb_lt x y : Py.ltb x y = true <-> (x < y)%Q.
Proof.
  unfold Py.ltb. rewrite negb_true_iff. split.
  - intros H. apply Qnot_le_lt. intros Hle.
    apply Qle_bool_iff in Hle. congruence.
  - intros H. destruct (Qle_bool y x) eqn:E; [| reflexivity].
    apply Qle_bool_iff in E. lra.
Qed.

Lemma ltb_ge x y : Py.ltb x y = false <-> (y <= x)%Q.
Proof.
  unfold Py.ltb. rewrite negb_false_iff. apply Qle_bool_iff.
Qed.


Lemma fdiv_nonzero a b : ~ (b == 0)%Q -> Py.fdiv a b = inr (a / b)%Q.
Proof.
  intros H. unfold Py.fdiv. destruct (Qeq_bool b 0) eqn:E; [| reflexivity].
  apply Qeq_bool_iff in E. contradiction.
Qed.


(** ** The sampling monad *)

Lemma run_ret {A} (a : A) g : Random.run (ret a) g = inr (a, g).
Proof. reflexivity. Qed.

Lemma run_bind {A B} (c : Random.M A) (k : A -> Random.M B) g :
  Random.run (bind c k) g =
  match Random.run c g with
  | inl e => inl e
  | inr (a, g') => Random.run (k a) g'
  end.
Proof.
  unfold Random.run. simpl.
  destruct (runStateT c g) as [e | [a g']]; reflexivity.
Qed.

Lemma run_raise {A} e g : Random.run (raise e : Random.M A) g = inl e.
Proof. reflexivity. Qed.

Lemma run_lift {A} (r : Py.exn + A) g :
  Random.run (lift r) g = match r with inl e => inl e | inr a => inr (a, g) end.
Proof. destruct r; reflexivity. Qed.

Lemma run_random g :
  Random.run Random.random g = inr (Random.draw g, Random.skip 1 g).
Proof. reflexivity. Qed.

Lemma skip_skip a b g : Random.skip a (Random.skip b g) = Random.skip (a + b) g.
Proof. unfold Random.skip. simpl. f_equal. lia. Qed.

Lemma skip_0 g : Random.skip 0 g = g.
Proof. destruct g; reflexivity. Qed.

Lemma frac_range q : (0 <= Random.frac q < 1)%Q.
Proof.
  unfold Random.frac. split.
  - pose proof (Qfloor_le q). lra.
  - pose proof (Qlt_floor q) as H. rewrite inject_Z_plus in H.
    change (inject_Z 1) with 1%Q in H. lra.
Qed.

Lemma draw_range g : (0 <= Random.draw g < 1)%Q.
Proof. apply frac_range. Qed.

(** [floor(u * n)] for a draw [u] is an index below [n]. *)
Lemma floor_draw_range u n :
  (0 <= u < 1)%Q -> 1 <= n -> 0 <= Qfloor (u * inject_Z n) < n.
Proof.
  intros [H0 H1] Hn.
  assert (Hn' : (1 <= inject_Z n)%Q).
  { change 1%Q with (inject_Z 1). now rewrite <- Zle_Qle. }
  split.
  - apply Qfloor_lower. change (inject_Z 0) with 0%Q. nra.
  - apply Qfloor_upper. nra.
Qed.


Lemma run_below n g :
  Random.run (Random.below n) g =
  inr (Qfloor (Random.draw g * inject_Z n), Random.skip 1 g).
Proof. reflexivity. Qed.

Lemma run_randint a b g :
  a <= b ->
  Random.run (Random.randint a b) g =
  inr (a + Qfloor (Random.draw g * inject_Z (b - a + 1)), Random.skip 1 g).
Proof.
  intros H. unfold Random.randint.
  destruct (Z.ltb_spec b a); [lia | reflexivity].
Qed.

Lemma run_randint_empty a b g :
  b < a ->
  Random.run (Random.randint a b) g =
  inl (Py.ValueError "empty range for randrange()").
Proof.
  intros H. unfold Random.randint.
  destruct (Z.ltb_spec b a); [reflexivity | lia].
Qed.

Lemma randint_range a b g :
  a <= b -> a <= a + Qfloor (Random.draw g * inject_Z (b - a + 1)) <= b.
Proof.
  intros H.
  pose proof (floor_draw_range (Random.draw g) (b - a + 1) (draw_range g)).
  lia.
Qed.

Lemma run_randint_ex a b g :
  a <= b ->
  exists k, Random.run (Random.randint a b) g = inr (k, Random.skip 1 g) /\ a <= k <= b.
Proof.
  intros H. eexists. split; [apply run_randint; exact H |].
  apply randint_range; exact H.
Qed.

Lemma run_uniform a b g :
  Random.run (Random.uniform a b) g =
  inr ((a + (b - a) * Random.draw g)%Q, Random.skip 1 g).
Proof. reflexivity. Qed.

Lemma run_choice {A} (seq : list A) g :
  seq <> [] ->
  exists a,
    Random.run (Random.choice seq) g = inr (a, Random.skip 1 g) /\ In a seq.
Proof.
  intros Hne. destruct seq as [| a0 seq']; [contradiction |].
  unfold Random.choice. rewrite run_bind, run_below.
  set (l := a0 :: seq') in *.
  pose proof (floor_draw_range (Random.draw g) (Z.of_nat (List.length l))
                (draw_range g)) as Hk.
  assert (Hlen : 1 <= Z.of_nat (List.length l)) by (subst l; simpl; lia).
  specialize (Hk Hlen).
  set (k := Qfloor _) in *.
  destruct (nth_error l (Z.to_nat k)) as [a |] eqn:E.
  - exists a. split; [reflexivity |]. eapply nth_error_In; eauto.
  - apply nth_error_None in E. lia.
Qed.

Lemma run_choice_empty {A} g :
  Random.run (Random.choice (@nil A)) g = inl Py.IndexError.
Proof. reflexivity. Qed.

(** ** CropAndPad *)

Ltac case_ltb :=
  repeat match goal with
  | |- context [?a <? ?b] => destruct (Z.ltb_spec a b)
  | |- context [?a <=? ?b] => destruct (Z.leb_spec a b)
  | |- context [?a =? ?b] => destruct (Z.eqb_spec a b)
  end.

Lemma split_sum regain :
  fst (Documented.split regain) + snd (Documented.split regain) = regain /\
  0 <= fst (Documented.split regain) - snd (Documented.split regain) <= 1.
Proof. unfold Documented.split. simpl. Z.div_mod_to_equations. lia. Qed.

(** The helper is the documented rebalancing for the regain
    [|max_val| + 1]. *)
Lemma prevent_zero_helper_rebalance val1 val2 max_val :
  CropAndPad.__prevent_zero val1 val2 max_val =
  Documented.rebalance (Z.abs max_val + 1) val1 val2.
Proof.
  unfold CropAndPad.__prevent_zero, Documented.rebalance, Documented.split.
  rewrite !Z.gtb_ltb.
  set (regain := Z.abs max_val + 1).
  assert (H : (if regain / 2 + regain / 2 <? regain then regain / 2 + 1 else regain / 2)
              = (regain + 1) / 2).
  { case_ltb; Z.div_mod_to_equations; lia. }
  rewrite H. case_ltb; f_equal; Z.div_mod_to_equations; lia.
Qed.

(** After the rebalancing of one axis and the final [max(_, 0)], the two
    crop amounts sum to [max(0, val1 + val2 - (max_val + 1))]. *)
Lemma prevent_zero_helper_sum val1 val2 max_val :
  0 <= val1 -> 0 <= val2 -> 0 <= max_val -> max_val <= val1 + val2 ->
  let '(v1, v2) := CropAndPad.__prevent_zero val1 val2 max_val in
  Z.max v1 0 + Z.max v2 0 = Z.max 0 (val1 + val2 - (max_val + 1)).
Proof.
  intros H1 H2 H3 H4. rewrite prevent_zero_helper_rebalance.
  unfold Documented.rebalance, Documented.split.
  case_ltb; Z.div_mod_to_equations; lia.
Qed.

(** The rows left by [_prevent_zero]: at least one exactly when the two crop
    amounts sum to at most twice the height. *)
Lemma prevent_zero_remaining_rows top right_ bottom left_ height width :
  0 <= top -> 0 <= bottom -> 1 <= height ->
  exists top' right' bottom' left',
    CropAndPad._prevent_zero [top; right_; bottom; left_] height width =
      inr [top'; right'; bottom'; left'] /\
    height - bottom' - top' =
      (if height - (top + bottom) <? 1
       then Z.min height (2 * height + 1 - (top + bottom))
       else height - (top + bottom)).
Proof.
  intros Ht Hb Hh. unfold CropAndPad._prevent_zero. cbn [CropAndPad.unpack4].
  destruct (Z.ltb_spec (height - (top + bottom)) 1) as [Hlt | Hge].
  - pose proof (prevent_zero_helper_sum top bottom height Ht Hb
                  ltac:(lia) ltac:(lia)) as Hs.
    destruct (CropAndPad.__prevent_zero top bottom height) as [t' b'].
    destruct (if width - (left_ + right_) <? 1
              then CropAndPad.__prevent_zero left_ right_ width
              else (left_, right_)) as [l' r'].
    do 4 eexists. split; [reflexivity |]. lia.
  - destruct (if width - (left_ + right_) <? 1
              then CropAndPad.__prevent_zero left_ right_ width
              else (left_, right_)) as [l' r'].
    do 4 eexists. split; [reflexivity |]. lia.
Qed.

(** C1 (code at the failing input). With [px = -11] on a 10x10 image each
    side asks for 11 pixels, more than the frame: the rebalancing regains
    only [10 + 1] pixels per axis, and the crop rectangle
    [[left, top, width - right, height - bottom]] comes out as
    [[5, 5, 4, 4]], of height and width [-1]. In general the crop amounts
    returned by [_prevent_zero] leave at least one row exactly when
    [top + bottom <= 2 * height]. *)
Theorem CropAndPad_crop_below_one_pixel :
  (forall g,
     Random.eval (CropAndPad.get_params_dependent_on_targets (constant_px (-11)) 10 10) g =
     inr (CropAndPad.mk_params (Some [5; 5; 4; 4]) None
            (Some (CropAndPad.NInt 0)) (Some (CropAndPad.NInt 0)) (-1) (-1))) /\
  (forall top right_ bottom left_ height width,
     0 <= top -> 0 <= bottom -> 1 <= height ->
     exists top' right' bottom' left',
       CropAndPad._prevent_zero [top; right_; bottom; left_] height width =
         inr [top'; right'; bottom'; left'] /\
       (1 <= height - bottom' - top' <-> top + bottom <= 2 * height)).
Proof.
  split; [reflexivity |].
  intros top right_ bottom left_ height width Ht Hb Hh.
  destruct (prevent_zero_remaining_rows top right_ bottom left_ height width Ht Hb Hh)
    as (top' & right' & bottom' & left' & E & Hrows).
  exists top', right', bottom', left'. split; [exact E |].
  rewrite Hrows. destruct (Z.ltb_spec (height - (top + bottom)) 1); lia.
Qed.

(** C2 (counterexample). For [-6] on all sides of a 10x10 image the
    documented arithmetic has regain 13, split 7/6, and gives back all the
    crop on both axes; the code regains 11, split 6/5, and keeps one pixel
    of crop on the second side of each axis. *)
Lemma CropAndPad_regain_is_not_combined_crop :
  Documented.regain 6 6 = 13 /\
  Documented.split 13 = (7, 6) /\
  Documented.prevent_zero 6 6 6 6 10 10 = [0; 0; 0; 0] /\
  CropAndPad._prevent_zero [6; 6; 6; 6] 10 10 = inr [0; 1; 1; 0] /\
  CropAndPad._prevent_zero [6; 6; 6; 6] 10 10 <>
    inr (Documented.prevent_zero 6 6 6 6 10 10).
Proof. repeat split; try reflexivity. discriminate. Qed.

(** C2 (amended). On an axis where less than one pixel would remain,
    [_prevent_zero] regains [|extent| + 1] pixels, [extent] being the frame
    height or width it passes to the helper: the regain is split as evenly
    as possible, the extra unit to the first side; each side's crop is
    reduced by its portion; what the first side cannot give back is moved to
    the second, otherwise what the second cannot give back is moved to the
    first; a side left negative becomes 0. For [-6] on all sides of a 10x10
    image the regain is 11, split 6/5, the crop amounts become
    [top, right, bottom, left = 0, 1, 1, 0] and the crop rectangle is
    [[0, 0, 9, 9]]. *)
Theorem CropAndPad_prevent_zero_rebalance :
  (forall regain,
     fst (Documented.split regain) + snd (Documented.split regain) = regain /\
     0 <= fst (Documented.split regain) - snd (Documented.split regain) <= 1) /\
  (forall val1 val2 max_val,
     CropAndPad.__prevent_zero val1 val2 max_val =
     Documented.rebalance (Z.abs max_val + 1) val1 val2) /\
  (forall top right_ bottom left_ height width,
     let axis v1 v2 extent :=
       if extent - (v1 + v2) <? 1
       then Documented.rebalance (Z.abs extent + 1) v1 v2 else (v1, v2) in
     CropAndPad._prevent_zero [top; right_; bottom; left_] height width =
     inr [Z.max (fst (axis top bottom height)) 0;
          Z.max (snd (axis left_ right_ width)) 0;
          Z.max (snd (axis top bottom height)) 0;
          Z.max (fst (axis left_ right_ width)) 0]) /\
  Documented.split (Z.abs 10 + 1) = (6, 5) /\
  CropAndPad.__prevent_zero 6 6 10 = (0, 1) /\
  (forall g,
     Random.eval (CropAndPad.get_params_dependent_on_targets (constant_px (-6)) 10 10) g =
     inr (CropAndPad.mk_params (Some [0; 0; 9; 9]) None
            (Some (CropAndPad.NInt 0)) (Some (CropAndPad.NInt 0)) 9 9)).
Proof.
  split; [exact split_sum |].
  split; [exact prevent_zero_helper_rebalance |].
  split.
  - intros. subst axis. unfold CropAndPad._prevent_zero. cbn [CropAndPad.unpack4].
    rewrite !prevent_zero_helper_rebalance.
    destruct (height - (top + bottom) <? 1), (width - (left_ + right_) <? 1);
      repeat match goal with
      | |- context [Documented.rebalance ?r ?a ?b] =>
          destruct (Documented.rebalance r a b)
      end; reflexivity.
  - repeat split; reflexivity.
Qed.

(** C8. [CropAndPad.__init__] raises, with a [ValueError], exactly when
    [px] and [percent] are both set or both [None]; with exactly one of them
    set it returns the transform, whose fields are the arguments. The check
    is made by the constructor: a constructed transform has exactly one of
    the two set. *)
Theorem CropAndPad_init_exclusive px percent pad_mode pad_cval pad_cval_mask
    keep_size sample_independently interpolation always_apply p :
  let r := CropAndPad.__init__ px percent pad_mode pad_cval pad_cval_mask
             keep_size sample_independently interpolation always_apply p in
  ((exists e, r = inl e) <->
     (px <> None /\ percent <> None) \/ (px = None /\ percent = None)) /\
  (forall e, r = inl e -> exists msg, e = Py.ValueError msg) /\
  (forall self, r = inr self ->
     self = CropAndPad.mk px percent pad_mode pad_cval pad_cval_mask
              keep_size sample_independently interpolation always_apply p /\
     ((CropAndPad.px self <> None /\ CropAndPad.percent self = None) \/
      (CropAndPad.px self = None /\ CropAndPad.percent self <> None))).
Proof.
  intros r. subst r. unfold CropAndPad.__init__.
  destruct px as [x |], percent as [y |]; (split; [split |]).
  all: try (intros [e H]; discriminate H).
  all: try (intros _; eexists; reflexivity).
  all: try (intros [[H1 H2] | [H1 H2]]; congruence).
  all: try (left; split; congruence).
  all: try (right; split; congruence).
  all: split; try (intros e H; inversion H; eexists; reflexivity);
       try (intros self H; discriminate H).
  all: try (intros e H; discriminate H).
  all: intros self H; inversion H; subst; simpl; split; [reflexivity |].
  - left. split; congruence.
  - right. split; congruence.
Qed.

(** ** Validation at construction *)

(** C5 (counterexample). Border fractions of 3/2, an erosion rate of 2 and
    a height range [(5, 3)] are all accepted by the constructors; the
    inverted height range only fails when a sample is drawn. *)
Lemma out_of_domain_parameters_accepted :
  RandomCropFromBorders.__init__ (3 # 2) (3 # 2) (3 # 2) (3 # 2) false 1 =
    inr (RandomCropFromBorders.mk (3 # 2) (3 # 2) (3 # 2) (3 # 2) false 1) /\
  BBoxSafeRandomCrop.__init__ 2 false 1 = inr (BBoxSafeRandomCrop.mk 2 false 1) /\
  RandomSizedCrop.__init__ (5, 3) 32 32 1 1 false 1 =
    inr (RandomSizedCrop.mk (5, 3) 32 32 1 1 false 1) /\
  Random.eval (RandomSizedCrop.get_params (RandomSizedCrop.mk (5, 3) 32 32 1 1 false 1))
    sevenths = inl (Py.ValueError "empty range for randrange()").
Proof. repeat split; reflexivity. Qed.

(** C5 (amended). Of the four transforms, only [RandomCropNearBBox]
    validates at construction: it raises a [ValueError] exactly when
    [min(max_part_shift) < 0] or [max(max_part_shift) > 1].
    [RandomCropFromBorders], [BBoxSafeRandomCrop] and [RandomSizedCrop]
    store their parameters unchecked, so construction succeeds for every
    border fraction, erosion rate and height range; an inverted
    [min_max_height] raises when a sample is drawn. *)
Theorem construction_time_validation :
  (forall m key always_apply p,
     ((exists e, RandomCropNearBBox.__init__ m key always_apply p = inl e) <->
        (RandomCropNearBBox.min2 (RandomCropNearBBox.to_tuple m) < 0 \/
         1 < RandomCropNearBBox.max2 (RandomCropNearBBox.to_tuple m))%Q) /\
     (forall e, RandomCropNearBBox.__init__ m key always_apply p = inl e ->
        e = Py.ValueError "Invalid max_part_shift")) /\
  (forall crop_left crop_right crop_top crop_bottom always_apply p,
     RandomCropFromBorders.__init__ crop_left crop_right crop_top crop_bottom
       always_apply p =
     inr (RandomCropFromBorders.mk crop_left crop_right crop_top crop_bottom
            always_apply p)) /\
  (forall erosion_rate always_apply p,
     BBoxSafeRandomCrop.__init__ erosion_rate always_apply p =
     inr (BBoxSafeRandomCrop.mk erosion_rate always_apply p)) /\
  (forall min_max_height height width w2h_ratio interpolation always_apply p,
     RandomSizedCrop.__init__ min_max_height height width w2h_ratio interpolation
       always_apply p =
     inr (RandomSizedCrop.mk min_max_height height width w2h_ratio interpolation
            always_apply p)) /\
  (forall self g,
     snd (RandomSizedCrop.min_max_height self) < fst (RandomSizedCrop.min_max_height self) ->
     Random.eval (RandomSizedCrop.get_params self) g =
     inl (Py.ValueError "empty range for randrange()")).
Proof.
  split; [| repeat split].
  - intros m key aa p. unfold RandomCropNearBBox.__init__.
    cbn [RandomCropNearBBox.max_part_shift].
    set (t := RandomCropNearBBox.to_tuple m).
    destruct (Py.ltb (RandomCropNearBBox.min2 t) 0) eqn:E1;
      destruct (Py.ltb 1 (RandomCropNearBBox.max2 t)) eqn:E2;
      cbn [orb]; (split; [split |]).
    all: try (intros _; eexists; reflexivity).
    all: try (intros e H; now inversion H).
    all: try (intros _; rewrite ltb_lt in *; tauto).
    + intros [e H]. discriminate H.
    + rewrite ltb_ge in E1, E2. intros [H | H]; lra.
  - intros self g H. unfold Random.eval, RandomSizedCrop.get_params.
    rewrite run_bind, run_randint_empty by exact H. reflexivity.
Qed.

(** ** RandomCropFromBorders *)






(** ** RandomCropNearBBox *)

(** C10. A transform constructed with [max_part_shift = (0, 0)] samples,
    for every reference rectangle [(x1, y1, x2, y2)] found under its key and
    every state of the generator, the rectangle
    [(max(0, x1), max(0, y1), x2, y2)]: the four shifts are zero, only the
    minimum corner is clamped at 0, and [x_max], [y_max] are the reference's
    own. *)
Theorem RandomCropNearBBox_zero_shift key always_apply p params x1 y1 x2 y2 g :
  RandomCropNearBBox.lookup params key = inr (x1, y1, x2, y2) ->
  exists self,
    RandomCropNearBBox.__init__ (RandomCropNearBBox.Pair 0 0) key always_apply p
      = inr self /\
    Random.eval (RandomCropNearBBox.get_params_dependent_on_targets self params) g =
      inr (RandomCropNearBBox.mk_params (Z.max 0 x1) x2 (Z.max 0 y1) y2).
Proof.
  intros Hk. eexists. split; [reflexivity |].
  unfold Random.eval, RandomCropNearBBox.get_params_dependent_on_targets.
  cbn [RandomCropNearBBox.cropping_bbox_key RandomCropNearBBox.max_part_shift
       RandomCropNearBBox.to_tuple fst snd].
  rewrite run_bind, run_lift, Hk.
  rewrite !round_zero by ring.
  change (- 0) with 0.
  assert (Hz : forall g', Qfloor (Random.draw g' * inject_Z (0 - 0 + 1)) = 0).
  { intros g'. pose proof (randint_range 0 0 g' ltac:(lia)). lia. }
  repeat (rewrite run_bind, run_randint by lia; rewrite Hz).
  rewrite run_ret. repeat f_equal; lia.
Qed.

Lemma RandomCropNearBBox_zero_shift_witness :
  RandomCropNearBBox.lookup [("test_box"%string, (-3, 5, 10, 20))] "test_box"
    = inr (-3, 5, 10, 20) /\
  exists self,
    RandomCropNearBBox.__init__ (RandomCropNearBBox.Pair 0 0) "test_box" false 1
      = inr self /\
    Random.eval
      (RandomCropNearBBox.get_params_dependent_on_targets self
         [("test_box"%string, (-3, 5, 10, 20))]) sevenths =
      inr (RandomCropNearBBox.mk_params (Z.max 0 (-3)) 10 (Z.max 0 5) 20).
Proof.
  split; [reflexivity |].
  apply (RandomCropNearBBox_zero_shift "test_box" false 1
           [("test_box"%string, (-3, 5, 10, 20))] (-3) 5 10 20 sevenths).
  reflexivity.
Defined.

(** ** RandomResizedCrop *)

Lemma plus_eps_nonzero z : ~ (inject_Z z + RandomResizedCrop.eps == 0)%Q.
Proof.
  unfold RandomResizedCrop.eps, Qeq. simpl. lia.
Qed.

Lemma run_descriptor rows cols height width i j g :
  Random.run (RandomResizedCrop.descriptor rows cols height width i j) g =
  inr (RandomResizedCrop.mk_params height width
         (inject_Z i * 1 / (inject_Z (rows - height) + RandomResizedCrop.eps))
         (inject_Z j * 1 / (inject_Z (cols - width) + RandomResizedCrop.eps)), g).
Proof.
  unfold RandomResizedCrop.descriptor.
  rewrite run_bind, run_lift, fdiv_nonzero by apply plus_eps_nonzero.
  rewrite run_bind, run_lift, fdiv_nonzero by apply plus_eps_nonzero.
  reflexivity.
Qed.

(** Runs one pass up to its test: the two draws are made, and a call of
    [math] that raises ends the pass with an exception. *)
Ltac run_to_test :=
  unfold Random.eval, RandomResizedCrop.attempt;
  rewrite run_bind, run_uniform;
  rewrite run_bind, run_lift;
  destruct (Math.log _ (fst _)) as [? | ?l0]; [discriminate |];
  rewrite run_bind, run_lift;
  destruct (Math.log _ (snd _)) as [? | ?l1]; [discriminate |];
  rewrite run_bind, run_uniform, skip_skip;
  rewrite run_bind, run_lift;
  destruct (Math.exp _ _) as [? | ?aspect_ratio]; [discriminate |];
  rewrite run_bind, run_lift;
  destruct (Math.sqrt _ _) as [? | ?sw]; [discriminate |];
  rewrite run_bind, run_lift;
  destruct (Py.fdiv _ _) as [? | ?q]; [discriminate |];
  rewrite run_bind, run_lift;
  destruct (Math.sqrt _ _) as [? | ?sh]; [discriminate |].

Section ResizedCrop.

Variable math : Math.t.
Variable self : RandomResizedCrop.t.
Variables rows cols : Z.

Let attempt := RandomResizedCrop.attempt math self rows cols.
Let attempts := RandomResizedCrop.attempts math self rows cols.

(** A pass of the loop that falls through has made exactly two draws. *)
Lemma attempt_rejected_run area g :
  Random.eval (attempt area) g = inr None ->
  Random.run (attempt area) g = inr (None, Random.skip 2 g).
Proof.
  unfold attempt. run_to_test.
  destruct (_ && _).
  - rewrite run_bind.
    destruct (Random.run (Random.randint 0 _) _) as [e | [i g1]]; [discriminate |].
    rewrite run_bind.
    destruct (Random.run (Random.randint 0 _) g1) as [e | [j g2]]; [discriminate |].
    rewrite run_bind, run_descriptor, run_ret. discriminate.
  - rewrite run_ret. reflexivity.
Qed.

(** A pass that returns a descriptor returns one that fits in the frame. *)
Lemma attempt_accepted_fits area g d :
  Random.eval (attempt area) g = inr (Some d) ->
  0 < RandomResizedCrop.crop_height d <= rows /\
  0 < RandomResizedCrop.crop_width d <= cols.
Proof.
  unfold attempt. run_to_test.
  destruct (_ && _) eqn:Acc.
  - rewrite run_bind.
    destruct (Random.run (Random.randint 0 _) _) as [e | [i g1]]; [discriminate |].
    rewrite run_bind.
    destruct (Random.run (Random.randint 0 _) g1) as [e | [j g2]]; [discriminate |].
    rewrite run_bind, run_descriptor, run_ret.
    intros H. inversion H; subst; clear H.
    cbn [RandomResizedCrop.crop_height RandomResizedCrop.crop_width].
    rewrite !andb_true_iff in Acc. lia.
  - rewrite run_ret. discriminate.
Qed.

(** [n] passes that all fall through leave the loop after [2 * n] draws. *)
Lemma attempts_rejected_run area n : forall g,
  (forall k, (k < n)%nat ->
     Random.eval (attempt area) (Random.skip (2 * k) g) = inr None) ->
  Random.run (attempts n area) g = inr (None, Random.skip (2 * n) g).
Proof.
  induction n as [| n IH]; intros g H.
  - simpl. now rewrite skip_0.
  - cbn [attempts RandomResizedCrop.attempts].
    rewrite run_bind.
    fold attempt. rewrite (attempt_rejected_run area g).
    + fold attempts. rewrite IH.
      * rewrite skip_skip. do 3 f_equal. lia.
      * intros k Hk. rewrite skip_skip.
        replace (2 * k + 2)%nat with (2 * S k)%nat by lia.
        apply H. lia.
    + rewrite <- (skip_0 g) at 1. apply (H 0%nat). lia.
Qed.

(** When all ten passes fall through, the result is the central crop. *)
Lemma all_rejected_central_crop g :
  RandomResizedCrop.all_rejected math self rows cols g = true ->
  Random.run (RandomResizedCrop.get_params_dependent_on_targets math self rows cols) g =
  Random.run (RandomResizedCrop.central_crop self rows cols) (Random.skip 20 g).
Proof.
  intros H. unfold RandomResizedCrop.all_rejected in H.
  rewrite forallb_forall in H.
  unfold RandomResizedCrop.get_params_dependent_on_targets.
  rewrite run_bind. fold attempts.
  rewrite attempts_rejected_run.
  - reflexivity.
  - intros k Hk.
    assert (Hin : In k (seq 0 10)) by (apply in_seq; lia).
    specialize (H k Hin). unfold RandomResizedCrop.rejected in H.
    fold attempt in H.
    destruct (Random.eval (attempt (rows * cols)) (Random.skip (2 * k) g))
      as [e | [d |]]; (reflexivity || discriminate H).
Qed.

End ResizedCrop.







(** C9 (code at the failing input). For a frame of 10 rows by 1 column and
    [ratio = (3, 4)], whenever the ten passes of the loop fall through the
    central crop has [crop_width = 1] and
    [crop_height = round(1 / 3) = 0]: the fallback does not make the check
    [0 < height] that the loop makes before it returns. *)
Theorem RandomResizedCrop_fallback_zero_height math scale g :
  let self := resized_crop scale (3, 4)%Q in
  RandomResizedCrop.all_rejected math self 10 1 g = true ->
  exists d,
    Random.eval (RandomResizedCrop.get_params_dependent_on_targets math self 10 1) g
      = inr d /\
    RandomResizedCrop.crop_width d = 1 /\
    RandomResizedCrop.crop_height d = 0.
Proof.
  intros self Hrej. unfold Random.eval.
  rewrite all_rejected_central_crop by exact Hrej.
  eexists. split; [reflexivity |]. split; reflexivity.
Qed.

Lemma RandomResizedCrop_fallback_zero_height_witness :
  RandomResizedCrop.all_rejected Approx.math (resized_crop (8 # 100, 1)%Q (3, 4)%Q)
    10 1 sevenths = true /\
  exists d,
    Random.eval
      (RandomResizedCrop.get_params_dependent_on_targets Approx.math
         (resized_crop (8 # 100, 1)%Q (3, 4)%Q) 10 1)
      sevenths = inr d /\
    RandomResizedCrop.crop_width d = 1 /\
    RandomResizedCrop.crop_height d = 0.
Proof.
  assert (Hrej : RandomResizedCrop.all_rejected Approx.math
                   (resized_crop (8 # 100, 1)%Q (3, 4)%Q) 10 1 sevenths = true)
    by (vm_compute; reflexivity).
  split; [exact Hrej |].
  exact (RandomResizedCrop_fallback_zero_height Approx.math (8 # 100, 1)%Q sevenths Hrej).
Defined.

(** ** BBoxSafeRandomCrop *)

(** C4 (code at the failing input). A 16x16 image with the single box
    [(0.5, 0.5, 0.75, 0.75)] (pixels 8 to 12), no erosion, and the draws
    1/16, 1/16, 0, 0: the region [(1/32, 1/32, 3/4, 3/4)] is 11.5 pixels
    wide and high, [int] cuts the crop to 11 pixels, and the crop rectangle
    [(0, 0, 11, 11)], in normalized coordinates [(0, 0, 11/16, 11/16)], ends
    before the union of the boxes, which is the box itself, does. *)
Theorem BBoxSafeRandomCrop_crop_cuts_union :
  let self := BBoxSafeRandomCrop.mk 0 false 1 in
  let union := BBoxSafeRandomCrop.union_of_bboxes 16 16 [aligned_box] 0 in
  exists d,
    Random.eval
      (BBoxSafeRandomCrop.get_params_dependent_on_targets
         BBoxSafeRandomCrop.union_of_bboxes self 16 16 [aligned_box]) sixteenths
      = inr d /\
    BBoxSafeRandomCrop.contains union aligned_box = true /\
    BBoxSafeRandomCrop.contains aligned_box union = true /\
    BBoxSafeRandomCrop.crop_height d = 11 /\
    BBoxSafeRandomCrop.crop_width d = 11 /\
    (BBoxSafeRandomCrop.h_start d == 1 # 9)%Q /\
    (BBoxSafeRandomCrop.w_start d == 1 # 9)%Q /\
    BBoxSafeRandomCrop.get_random_crop_coords 16 16
      (BBoxSafeRandomCrop.crop_height d) (BBoxSafeRandomCrop.crop_width d)
      (BBoxSafeRandomCrop.h_start d) (BBoxSafeRandomCrop.w_start d) = (0, 0, 11, 11) /\
    BBoxSafeRandomCrop.contains (BBoxSafeRandomCrop.crop_bounds 16 16 d) union = false.
Proof.
  intros self union. eexists. split; [reflexivity |].
  repeat split; vm_compute; reflexivity.
Qed.

Lemma BBoxSafeRandomCrop_truncation :
  exists d,
    Random.eval
      (BBoxSafeRandomCrop.get_params_dependent_on_targets
         BBoxSafeRandomCrop.union_of_bboxes (BBoxSafeRandomCrop.mk 0 false 1)
         10 10 [fractional_box]) zeros = inr d /\
    BBoxSafeRandomCrop.crop_width d = 7 /\
    (BBoxSafeRandomCrop.w_start d == 0)%Q /\
    BBoxSafeRandomCrop.contains (BBoxSafeRandomCrop.crop_bounds 10 10 d) fractional_box = false.
Proof. eexists. split; [reflexivity |]. repeat split; vm_compute; reflexivity. Qed.

(** ** CropNonEmptyMaskIfExists *)

Section MaskArrays.

Import CropNonEmptyMaskIfExists.

Lemma row_nonzero_sound row : forall x0 x,
  In x (row_nonzero x0 row) ->
  x0 <= x /\
  exists v, nth_error row (Z.to_nat (x - x0)) = Some v /\ v <> 0.
Proof.
  induction row as [| v row IH]; intros x0 x Hin; [contradiction |].
  cbn [row_nonzero] in Hin.
  assert (Hrest : In x (row_nonzero (x0 + 1) row) ->
            x0 <= x /\
            exists v', nth_error (v :: row) (Z.to_nat (x - x0)) = Some v' /\ v' <> 0).
  { intros H. destruct (IH _ _ H) as (Hle & v' & Hn & Hv). split; [lia |].
    exists v'. split; [| exact Hv].
    replace (Z.to_nat (x - x0)) with (S (Z.to_nat (x - (x0 + 1)))) by lia.
    exact Hn. }
  destruct (nonzero v) eqn:Ev; [| auto].
  destruct Hin as [<- | Hin]; [| auto].
  split; [lia |]. exists v. rewrite Z.sub_diag. split; [reflexivity |].
  unfold nonzero in Ev. rewrite negb_true_iff in Ev. now apply Z.eqb_neq.
Qed.

Lemma argwhere_from_sound a : forall y0 y x,
  In (y, x) (argwhere_from y0 a) ->
  y0 <= y /\ 0 <= x /\
  exists row v,
    nth_error a (Z.to_nat (y - y0)) = Some row /\
    nth_error row (Z.to_nat x) = Some v /\ v <> 0.
Proof.
  induction a as [| row a IH]; intros y0 y x Hin; [contradiction |].
  cbn [argwhere_from] in Hin. apply in_app_or in Hin. destruct Hin as [Hin | Hin].
  - apply in_map_iff in Hin. destruct Hin as (x' & E & Hin). inversion E; subst.
    destruct (row_nonzero_sound _ _ _ Hin) as (Hle & v & Hn & Hv).
    split; [lia |]. split; [lia |]. exists row, v.
    rewrite Z.sub_diag. rewrite Z.sub_0_r in Hn. auto.
  - destruct (IH _ _ _ Hin) as (Hle & Hx & row' & v & Hr & Hn & Hv).
    split; [lia |]. split; [exact Hx |]. exists row', v.
    replace (Z.to_nat (y - y0)) with (S (Z.to_nat (y - (y0 + 1)))) by lia.
    auto.
Qed.

(** An entry of [np.argwhere] is the position of a non-zero entry of the
    array. *)
Lemma argwhere_sound a y x :
  In (y, x) (argwhere a) ->
  0 <= y < len a /\ 0 <= x /\
  exists row v,
    In row a /\ x < len row /\
    nth_error a (Z.to_nat y) = Some row /\
    nth_error row (Z.to_nat x) = Some v /\ v <> 0.
Proof.
  intros Hin. destruct (argwhere_from_sound _ _ _ _ Hin)
    as (Hy & Hx & row & v & Hr & Hn & Hv).
  rewrite Z.sub_0_r in Hr.
  assert (Hy' : (Z.to_nat y < List.length a)%nat).
  { apply nth_error_Some. congruence. }
  assert (Hx' : (Z.to_nat x < List.length row)%nat).
  { apply nth_error_Some. congruence. }
  unfold len. split; [lia |]. split; [exact Hx |].
  exists row, v. repeat split; auto; [| lia].
  eapply nth_error_In; eauto.
Qed.

(** The summed mask has the shape of the mask. *)
Lemma flat_shape mask :
  rectangular mask = true ->
  len (flat mask) = fst (shape2 mask) /\
  forall row, In row (flat mask) -> len row = snd (shape2 mask).
Proof.
  unfold rectangular, len. destruct mask as [a | a]; cbn [flat shape2 fst snd];
    rewrite forallb_forall; intros Hrect.
  - split; [reflexivity |]. intros row Hin. apply Z.eqb_eq. now apply Hrect.
  - rewrite length_map. split; [reflexivity |]. intros row Hin.
    apply in_map_iff in Hin. destruct Hin as (row' & <- & Hin).
    rewrite length_map. apply Z.eqb_eq. now apply Hrect.
Qed.

Lemma zero_out_shape vals mask : shape2 (zero_out vals mask) = shape2 mask.
Proof.
  unfold shape2, zero_out, len.
  destruct mask as [a | a]; rewrite length_map; destruct a as [| row a];
    cbn [map hd]; rewrite ?length_map; reflexivity.
Qed.

Lemma take_shape a chs : shape2 (Arr3 (take a chs)) = shape2 (Arr3 a).
Proof.
  unfold shape2, take, len. rewrite length_map.
  destruct a as [| row a]; cbn [map hd]; rewrite ?length_map; reflexivity.
Qed.

(** [_preprocess_mask] keeps the height and width of the mask, and raises
    unless the crop fits in them. *)
Lemma preprocess_mask_fits self mask mask' :
  _preprocess_mask self mask = inr mask' ->
  shape2 mask' = shape2 mask /\
  height self <= fst (shape2 mask) /\ width self <= snd (shape2 mask).
Proof.
  unfold _preprocess_mask.
  destruct (shape2 mask) as [mask_height mask_width] eqn:Eshape.
  set (m1 := match ignore_values self with
             | Some vals => zero_out vals mask
             | None => mask
             end).
  assert (E1 : shape2 m1 = (mask_height, mask_width)).
  { subst m1. destruct (ignore_values self); [rewrite zero_out_shape |]; exact Eshape. }
  intros H.
  assert (Hm : forall m2, shape2 m2 = (mask_height, mask_width) ->
            (if (mask_height <? height self) || (mask_width <? width self)
             then inl (Py.ValueError "Crop size is larger than image")
             else inr m2) = inr mask' ->
            shape2 mask' = (mask_height, mask_width) /\
            height self <= fst (mask_height, mask_width) /\
            width self <= snd (mask_height, mask_width)).
  { intros m2 E2 Hif.
    destruct (Z.ltb_spec mask_height (height self));
      destruct (Z.ltb_spec mask_width (width self)); cbn [orb] in Hif;
      try discriminate Hif.
    injection Hif as <-. cbn [fst snd]. auto. }
  destruct m1 as [a | a].
  - apply (Hm _ E1). destruct (ignore_channels self); exact H.
  - destruct (ignore_channels self) as [ign |].
    + destruct (filter _ _) as [| ch chs] eqn:Ef; [discriminate H |].
      apply (Hm (Arr3 (take a (ch :: chs)))); [| exact H].
      rewrite take_shape. exact E1.
    + apply (Hm _ E1). exact H.
Qed.

End MaskArrays.

(** A window of [w] pixels placed at [q - d], for a jitter [d] below [w],
    then clipped into [[0, hi]], still covers the pixel [q]. *)
Lemma clip_contains d hi w q :
  0 <= q < hi + w -> 0 <= d <= w - 1 -> 0 <= hi ->
  let m := Py.clip (q - d) 0 hi in
  m <= q < m + w /\ 0 <= m <= hi.
Proof. intros. subst m. unfold Py.clip. lia. Qed.

Section MaskCropSampling.

Import CropNonEmptyMaskIfExists.

Variable self : t.
Variable kw : kwargs.
Variable mask : ndarray.
Variable g : Random.rng.

Hypothesis Hpre : preprocessed self kw = inr mask.
Hypothesis Hrect : rectangular mask = true.
Hypothesis Hh : height self <= fst (shape2 mask).
Hypothesis Hw : width self <= snd (shape2 mask).

(** With a foreground pixel: the crop covers the pixel drawn by
    [random.choice] and lies in the mask. *)
Lemma foreground_crop :
  any mask = true ->
  forall d, Random.eval (update_params self kw) g = inr d ->
  exists y x,
    Random.eval (Random.choice (argwhere (flat mask))) g = inr (y, x) /\
    In (y, x) (argwhere (flat mask)) /\
    x_min d <= x < x_max d /\ y_min d <= y < y_max d /\
    0 <= x_min d <= snd (shape2 mask) - width self /\
    0 <= y_min d <= fst (shape2 mask) - height self /\
    x_max d = x_min d + width self /\ y_max d = y_min d + height self.
Proof.
  destruct (flat_shape mask Hrect) as [Hlen Hrows].
  intros Hany d.
  unfold Random.eval, update_params.
  rewrite run_bind, run_lift, Hpre.
  destruct (shape2 mask) as [mask_height mask_width] eqn:Eshape.
  cbn [fst snd] in *.
  rewrite run_bind, Hany.
  destruct (argwhere (flat mask)) as [| yx0 rest] eqn:Enz.
  - rewrite run_bind, run_choice_empty. discriminate.
  - rewrite <- Enz.
    destruct (run_choice (argwhere (flat mask)) g) as ([y x] & Hc & Hin).
    { rewrite Enz. discriminate. }
    rewrite run_bind, Hc.
    destruct (argwhere_sound _ _ _ Hin) as (Hy & Hx & row & v & Hrow & Hxw & _).
    rewrite (Hrows row Hrow) in Hxw. rewrite Hlen in Hy.
    destruct (Z.lt_ge_cases (width self - 1) 0) as [Hw0 | Hw0].
    { rewrite run_bind, run_randint_empty by exact Hw0. discriminate. }
    destruct (run_randint_ex 0 (width self - 1) (Random.skip 1 g) Hw0)
      as (dx & Edx & Hdx).
    rewrite run_bind, Edx.
    destruct (Z.lt_ge_cases (height self - 1) 0) as [Hh0 | Hh0].
    { rewrite run_bind, run_randint_empty by exact Hh0. discriminate. }
    destruct (run_randint_ex 0 (height self - 1)
                (Random.skip 1 (Random.skip 1 g)) Hh0) as (dy & Edy & Hdy).
    rewrite run_bind, Edy.
    rewrite run_ret, run_ret. intros E.
    injection E as <-. cbn [x_min x_max y_min y_max].
    exists y, x. split; [reflexivity |]. split; [exact Hin |].
    pose proof (clip_contains dx (mask_width - width self) (width self) x
                  ltac:(lia) ltac:(lia) ltac:(lia)) as Cx.
    pose proof (clip_contains dy (mask_height - height self) (height self) y
                  ltac:(lia) ltac:(lia) ltac:(lia)) as Cy.
    cbv zeta in Cx, Cy. lia.
Qed.

(** With a pixel to draw and a crop of at least one pixel each way, a crop
    is returned. *)
Lemma foreground_crop_returns :
  any mask = true ->
  argwhere (flat mask) <> [] -> 1 <= width self -> 1 <= height self ->
  exists d, Random.eval (update_params self kw) g = inr d.
Proof.
  intros Hany Hne Hw1 Hh1.
  unfold Random.eval, update_params.
  rewrite run_bind, run_lift, Hpre.
  destruct (shape2 mask) as [mask_height mask_width] eqn:Eshape.
  rewrite run_bind, Hany.
  destruct (run_choice (argwhere (flat mask)) g Hne) as ([y x] & Hc & Hin).
  rewrite run_bind, Hc.
  destruct (run_randint_ex 0 (width self - 1) (Random.skip 1 g) ltac:(lia))
    as (dx & Edx & Hdx).
  rewrite run_bind, Edx.
  destruct (run_randint_ex 0 (height self - 1)
              (Random.skip 1 (Random.skip 1 g)) ltac:(lia)) as (dy & Edy & Hdy).
  rewrite run_bind, Edy.
  rewrite run_ret, run_ret. eexists. reflexivity.
Qed.


End MaskCropSampling.



(** * Further properties of the parameter samplers *)

(** ** CropAndPad: the descriptor *)

Lemma rebalance_bounds regain val1 val2 :
  1 <= regain -> 0 <= val1 -> 0 <= val2 ->
  let '(v1, v2) := Documented.rebalance regain val1 val2 in
  v1 <= val1 /\ v2 <= val2.
Proof.
  intros Hr H1 H2. unfold Documented.rebalance, Documented.split.
  case_ltb; Z.div_mod_to_equations; lia.
Qed.

(** [_prevent_zero] on four crop amounts that are not negative. *)
Lemma prevent_zero_bounds top right_ bottom left_ height width :
  0 <= top -> 0 <= right_ -> 0 <= bottom -> 0 <= left_ ->
  exists top' right' bottom' left',
    CropAndPad._prevent_zero [top; right_; bottom; left_] height width =
      inr [top'; right'; bottom'; left'] /\
    0 <= top' <= top /\ 0 <= right' <= right_ /\
    0 <= bottom' <= bottom /\ 0 <= left' <= left_ /\
    (1 <= height - (top + bottom) -> top' = top /\ bottom' = bottom) /\
    (1 <= width - (left_ + right_) -> left' = left_ /\ right' = right_).
Proof.
  intros Ht Hr Hb Hl. unfold CropAndPad._prevent_zero. cbn [CropAndPad.unpack4].
  rewrite !prevent_zero_helper_rebalance.
  pose proof (rebalance_bounds (Z.abs height + 1) top bottom ltac:(lia) Ht Hb) as B1.
  pose proof (rebalance_bounds (Z.abs width + 1) left_ right_ ltac:(lia) Hl Hr) as B2.
  destruct (Documented.rebalance (Z.abs height + 1) top bottom) as [t1 b1].
  destruct (Documented.rebalance (Z.abs width + 1) left_ right_) as [l1 r1].
  destruct (Z.ltb_spec (height - (top + bottom)) 1);
    destruct (Z.ltb_spec (width - (left_ + right_)) 1);
    do 4 eexists; (split; [reflexivity |]); lia.
Qed.

(** X7. [_prevent_zero] never makes a crop larger: given four crop amounts
    that are not negative it returns four amounts, each between 0 and the
    amount given; an axis on which at least one pixel already remains is
    returned unchanged. *)
Theorem CropAndPad_prevent_zero_never_grows top right_ bottom left_ height width :
  0 <= top -> 0 <= right_ -> 0 <= bottom -> 0 <= left_ ->
  exists top' right' bottom' left',
    CropAndPad._prevent_zero [top; right_; bottom; left_] height width =
      inr [top'; right'; bottom'; left'] /\
    0 <= top' <= top /\ 0 <= right' <= right_ /\
    0 <= bottom' <= bottom /\ 0 <= left' <= left_ /\
    (1 <= height - (top + bottom) -> top' = top /\ bottom' = bottom) /\
    (1 <= width - (left_ + right_) -> left' = left_ /\ right' = right_).
Proof.
  intros Ht Hr Hb Hl. unfold CropAndPad._prevent_zero. cbn [CropAndPad.unpack4].
  rewrite !prevent_zero_helper_rebalance.
  pose proof (rebalance_bounds (Z.abs height + 1) top bottom ltac:(lia) Ht Hb) as B1.
  pose proof (rebalance_bounds (Z.abs width + 1) left_ right_ ltac:(lia) Hl Hr) as B2.
  destruct (Documented.rebalance (Z.abs height + 1) top bottom) as [t1 b1].
  destruct (Documented.rebalance (Z.abs width + 1) left_ right_) as [l1 r1].
  destruct (Z.ltb_spec (height - (top + bottom)) 1);
    destruct (Z.ltb_spec (width - (left_ + right_)) 1);
    do 4 eexists; (split; [reflexivity |]); lia.
Qed.

Lemma CropAndPad_prevent_zero_never_grows_witness :
  0 <= 7 /\ 0 <= 2 /\ 0 <= 7 /\ 0 <= 3 /\
  exists top' right' bottom' left',
    CropAndPad._prevent_zero [7; 2; 7; 3] 10 10 = inr [top'; right'; bottom'; left'] /\
    0 <= top' <= 7 /\ 0 <= right' <= 2 /\
    0 <= bottom' <= 7 /\ 0 <= left' <= 3 /\
    (1 <= 10 - (7 + 7) -> top' = 7 /\ bottom' = 7) /\
    (1 <= 10 - (3 + 2) -> left' = 3 /\ right' = 2).
Proof.
  repeat (split; [lia |]).
  apply (CropAndPad_prevent_zero_never_grows 7 2 7 3 10 10); lia.
Defined.

(** What [get_params_dependent_on_targets] returns, from the four amounts
    bound to [new_params] and what [_prevent_zero] makes of their crops. *)
Lemma get_params_inv self height width g d :
  Random.eval (CropAndPad.get_params_dependent_on_targets self height width) g = inr d ->
  exists a b c e g1 top' right' bottom' left',
    Random.run (new_params self height width) g = inr ([a; b; c; e], g1) /\
    CropAndPad._prevent_zero [- Z.min a 0; - Z.min b 0; - Z.min c 0; - Z.min e 0]
      height width = inr [top'; right'; bottom'; left'] /\
    CropAndPad.crop_params d =
      (if (width - right' - left' =? width) && (height - bottom' - top' =? height)
       then None else Some [left'; top'; width - right'; height - bottom']) /\
    CropAndPad.pad_params d =
      (if (Z.max a 0 =? 0) && (Z.max c 0 =? 0) && (Z.max e 0 =? 0) && (Z.max b 0 =? 0)
       then None else Some [Z.max a 0; Z.max c 0; Z.max e 0; Z.max b 0]) /\
    CropAndPad.result_rows d = height - bottom' - top' + (Z.max a 0 + Z.max c 0) /\
    CropAndPad.result_cols d = width - right' - left' + (Z.max e 0 + Z.max b 0).
Proof.
  unfold Random.eval, CropAndPad.get_params_dependent_on_targets.
  rewrite run_bind. fold (new_params self height width).
  destruct (Random.run (new_params self height width) g) as [ex | [l g1]];
    [discriminate |].
  rewrite run_bind, run_lift.
  destruct l as [| a [| b [| c [| e [| x l]]]]]; try discriminate.
  cbn [map].
  destruct (CropAndPad._prevent_zero _ height width) as [ex | crop] eqn:Epz;
    [discriminate |].
  assert (Hcrop : exists t' r' b' l', crop = [t'; r'; b'; l']).
  { unfold CropAndPad._prevent_zero in Epz. cbn [CropAndPad.unpack4] in Epz.
    repeat match type of Epz with
           | context [let '(_, _) := ?x in _] => destruct x
           end.
    injection Epz as <-. eauto. }
  destruct Hcrop as (t' & r' & b' & l' & ->).
  rewrite run_bind, run_lift. cbn [CropAndPad.unpack4].
  rewrite run_bind, run_lift. cbn [CropAndPad.unpack4].
  rewrite run_bind.
  destruct (Random.run (CropAndPad._get_pad_value _) g1) as [ex | [pv g2]];
    [discriminate |].
  rewrite run_bind.
  destruct (Random.run (CropAndPad._get_pad_value _) g2) as [ex | [pvm g3]];
    [discriminate |].
  rewrite run_ret. intros H. injection H as <-.
  exists a, b, c, e, g1, t', r', b', l'.
  split; [reflexivity |]. split; [exact Epz |].
  cbn [CropAndPad.crop_params CropAndPad.pad_params CropAndPad.result_rows
       CropAndPad.result_cols existsb].
  generalize (Z.max a 0) (Z.max b 0) (Z.max c 0) (Z.max e 0). intros pa pb pc pe.
  destruct ((width - r' - l' =? width) && (height - b' - t' =? height));
    destruct (Z.eqb_spec pa 0), (Z.eqb_spec pc 0), (Z.eqb_spec pe 0),
      (Z.eqb_spec pb 0); cbn [negb orb andb CropAndPad.or_None];
    repeat split; lia.
Qed.

(** X1. Every descriptor that [get_params_dependent_on_targets] returns
    is made of a crop rectangle [(x1, y1, x2, y2)] inside the frame and four
    pad amounts that are not negative: [crop_params] is the rectangle, or
    [None] when it is the whole frame; [pad_params] is
    [(top, bottom, left, right)], or [None] when all four are 0; the result
    shape is the size of the rectangle plus the pads; and a side that is
    padded is not cropped. *)
Theorem CropAndPad_descriptor_invariants self height width g d :
  Random.eval (CropAndPad.get_params_dependent_on_targets self height width) g = inr d ->
  exists x1 y1 x2 y2 pad_top pad_bottom pad_left pad_right,
    CropAndPad.crop_params d =
      (if (x1 =? 0) && (y1 =? 0) && (x2 =? width) && (y2 =? height)
       then None else Some [x1; y1; x2; y2]) /\
    CropAndPad.pad_params d =
      (if (pad_top =? 0) && (pad_bottom =? 0) && (pad_left =? 0) && (pad_right =? 0)
       then None else Some [pad_top; pad_bottom; pad_left; pad_right]) /\
    0 <= x1 /\ 0 <= y1 /\ x2 <= width /\ y2 <= height /\
    0 <= pad_top /\ 0 <= pad_bottom /\ 0 <= pad_left /\ 0 <= pad_right /\
    CropAndPad.result_rows d = y2 - y1 + pad_top + pad_bottom /\
    CropAndPad.result_cols d = x2 - x1 + pad_left + pad_right /\
    (0 < pad_top -> y1 = 0) /\ (0 < pad_bottom -> y2 = height) /\
    (0 < pad_left -> x1 = 0) /\ (0 < pad_right -> x2 = width).
Proof.
  intros H.
  destruct (get_params_inv _ _ _ _ _ H)
    as (a & b & c & e & g1 & t' & r' & b' & l' & _ & Epz & Hc & Hp & Hr & Hcol).
  destruct (prevent_zero_bounds (- Z.min a 0) (- Z.min b 0) (- Z.min c 0) (- Z.min e 0)
              height width ltac:(lia) ltac:(lia) ltac:(lia) ltac:(lia))
    as (t2 & r2 & b2 & l2 & Epz' & Bt & Br & Bb & Bl & _).
  rewrite Epz in Epz'. injection Epz' as <- <- <- <-.
  exists l', t', (width - r'), (height - b'),
    (Z.max a 0), (Z.max c 0), (Z.max e 0), (Z.max b 0).
  split.
  { rewrite Hc.
    replace ((l' =? 0) && (t' =? 0) && (width - r' =? width) && (height - b' =? height))
      with ((width - r' - l' =? width) && (height - b' - t' =? height)); [reflexivity |].
    destruct (Z.eqb_spec (width - r' - l') width), (Z.eqb_spec (height - b' - t') height),
      (Z.eqb_spec l' 0), (Z.eqb_spec t' 0), (Z.eqb_spec (width - r') width),
      (Z.eqb_spec (height - b') height); cbn [andb]; (reflexivity || lia). }
  split; [exact Hp |].
  repeat split; lia.
Qed.

Lemma CropAndPad_descriptor_invariants_witness :
  Random.eval (CropAndPad.get_params_dependent_on_targets (constant_px 3) 10 10) sevenths
    = inr (CropAndPad.mk_params None (Some [3; 3; 3; 3])
             (Some (CropAndPad.NInt 0)) (Some (CropAndPad.NInt 0)) 16 16) /\
  exists x1 y1 x2 y2 pad_top pad_bottom pad_left pad_right,
    None =
      (if (x1 =? 0) && (y1 =? 0) && (x2 =? 10) && (y2 =? 10)
       then None else Some [x1; y1; x2; y2]) /\
    Some [3; 3; 3; 3] =
      (if (pad_top =? 0) && (pad_bottom =? 0) && (pad_left =? 0) && (pad_right =? 0)
       then None else Some [pad_top; pad_bottom; pad_left; pad_right]) /\
    0 <= x1 /\ 0 <= y1 /\ x2 <= 10 /\ y2 <= 10 /\
    0 <= pad_top /\ 0 <= pad_bottom /\ 0 <= pad_left /\ 0 <= pad_right /\
    16 = y2 - y1 + pad_top + pad_bottom /\
    16 = x2 - x1 + pad_left + pad_right /\
    (0 < pad_top -> y1 = 0) /\ (0 < pad_bottom -> y2 = 10) /\
    (0 < pad_left -> x1 = 0) /\ (0 < pad_right -> x2 = 10).
Proof.
  split; [reflexivity |].
  apply (CropAndPad_descriptor_invariants (constant_px 3) 10 10 sevenths
           (CropAndPad.mk_params None (Some [3; 3; 3; 3])
              (Some (CropAndPad.NInt 0)) (Some (CropAndPad.NInt 0)) 16 16)).
  reflexivity.
Defined.

(** [int] truncates towards zero: it does not go below a bound that is not
    positive. *)
Lemma int_lower z x : (inject_Z z <= x)%Q -> z <= 0 -> z <= Py.int x.
Proof.
  intros H Hz. destruct x as [n d]. unfold Py.int. cbn [Qnum Qden].
  unfold Qle in H. cbn [Qnum Qden inject_Z] in H.
  destruct (Z.le_gt_cases 0 n) as [Hn | Hn].
  - rewrite Z.quot_div_nonneg by lia.
    pose proof (Z.div_pos n (Z.pos d) Hn ltac:(lia)). lia.
  - replace n with (- (- n)) by lia. rewrite Z.quot_opp_l by lia.
    rewrite Z.quot_div_nonneg by lia.
    enough (- n / Z.pos d <= - z) by lia.
    apply Z.div_le_upper_bound; lia.
Qed.

(** The rows and columns left by [_prevent_zero]. *)
Lemma prevent_zero_remaining top right_ bottom left_ height width :
  0 <= top -> 0 <= right_ -> 0 <= bottom -> 0 <= left_ ->
  1 <= height -> 1 <= width ->
  exists top' right' bottom' left',
    CropAndPad._prevent_zero [top; right_; bottom; left_] height width =
      inr [top'; right'; bottom'; left'] /\
    height - bottom' - top' =
      (if height - (top + bottom) <? 1
       then Z.min height (2 * height + 1 - (top + bottom))
       else height - (top + bottom)) /\
    width - right' - left' =
      (if width - (left_ + right_) <? 1
       then Z.min width (2 * width + 1 - (left_ + right_))
       else width - (left_ + right_)).
Proof.
  intros Ht Hr Hb Hl Hh Hw. unfold CropAndPad._prevent_zero. cbn [CropAndPad.unpack4].
  destruct (Z.ltb_spec (height - (top + bottom)) 1) as [H1 | H1];
    destruct (Z.ltb_spec (width - (left_ + right_)) 1) as [H2 | H2].
  all: try pose proof (prevent_zero_helper_sum top bottom height Ht Hb
                         ltac:(lia) ltac:(lia)) as S1.
  all: try pose proof (prevent_zero_helper_sum left_ right_ width Hl Hr
                         ltac:(lia) ltac:(lia)) as S2.
  all: repeat match goal with
       | |- context [CropAndPad.__prevent_zero ?a ?b ?c] =>
           destruct (CropAndPad.__prevent_zero a b c)
       end.
  all: do 4 eexists; (split; [reflexivity |]); lia.
Qed.

(** Amounts that crop no side by more than the frame leave a crop of at
    least one pixel each way. *)
Lemma get_params_keeps_one_pixel self height width g d a b c e g1 :
  1 <= height -> 1 <= width ->
  Random.run (new_params self height width) g = inr ([a; b; c; e], g1) ->
  - a <= height -> - c <= height -> - b <= width -> - e <= width ->
  Random.eval (CropAndPad.get_params_dependent_on_targets self height width) g = inr d ->
  1 <= CropAndPad.result_rows d /\ 1 <= CropAndPad.result_cols d /\
  forall x1 y1 x2 y2,
    CropAndPad.crop_params d = Some [x1; y1; x2; y2] ->
    0 <= x1 < x2 /\ x2 <= width /\ 0 <= y1 < y2 /\ y2 <= height.
Proof.
  intros Hh Hw Hnew Ha Hc Hb He H.
  destruct (get_params_inv _ _ _ _ _ H)
    as (a' & b' & c' & e' & g1' & t' & r' & bo' & l' & Hnew' & Epz & Hcp & _ & Hr & Hcol).
  rewrite Hnew in Hnew'. injection Hnew' as <- <- <- <- <-.
  destruct (prevent_zero_bounds (- Z.min a 0) (- Z.min b 0) (- Z.min c 0) (- Z.min e 0)
              height width ltac:(lia) ltac:(lia) ltac:(lia) ltac:(lia))
    as (t2 & r2 & b2 & l2 & Epz' & Bt & Br & Bb & Bl & _).
  destruct (prevent_zero_remaining (- Z.min a 0) (- Z.min b 0) (- Z.min c 0)
              (- Z.min e 0) height width
              ltac:(lia) ltac:(lia) ltac:(lia) ltac:(lia) Hh Hw)
    as (t3 & r3 & b3 & l3 & Epz3 & Rr & Rc).
  rewrite Epz in Epz', Epz3. injection Epz' as <- <- <- <-.
  injection Epz3 as <- <- <- <-.
  assert (Hrows : 1 <= height - bo' - t').
  { rewrite Rr. destruct (Z.ltb_spec (height - (- Z.min a 0 + - Z.min c 0)) 1); lia. }
  assert (Hcols : 1 <= width - r' - l').
  { rewrite Rc. destruct (Z.ltb_spec (width - (- Z.min e 0 + - Z.min b 0)) 1); lia. }
  split; [lia |]. split; [lia |].
  intros x1 y1 x2 y2 E. rewrite Hcp in E.
  destruct ((width - r' - l' =? width) && (height - bo' - t' =? height));
    [discriminate |].
  injection E as <- <- <- <-. lia.
Qed.

(** X2. With a constant [px = n] that crops no side by more than the frame
    ([-n <= height], [-n <= width]), on a frame of at least 1x1: every
    descriptor returned has at least one row and one column, and its crop
    rectangle, when there is one, is a non-empty rectangle inside the
    frame. *)
Theorem CropAndPad_px_within_frame self n height width g d :
  CropAndPad.px self = Some (CropAndPad.PxInt n) ->
  1 <= height -> 1 <= width -> - n <= height -> - n <= width ->
  Random.eval (CropAndPad.get_params_dependent_on_targets self height width) g = inr d ->
  1 <= CropAndPad.result_rows d /\ 1 <= CropAndPad.result_cols d /\
  forall x1 y1 x2 y2,
    CropAndPad.crop_params d = Some [x1; y1; x2; y2] ->
    0 <= x1 < x2 /\ x2 <= width /\ 0 <= y1 < y2 /\ y2 <= height.
Proof.
  intros Hpx Hh Hw Hn1 Hn2 H.
  apply (get_params_keeps_one_pixel self height width g d n n n n g); try assumption.
  unfold new_params, CropAndPad._get_px_params. rewrite Hpx. reflexivity.
Qed.

Lemma CropAndPad_px_within_frame_witness :
  CropAndPad.px (constant_px (-7)) = Some (CropAndPad.PxInt (-7)) /\
  1 <= 10 /\ 1 <= 10 /\ - (-7) <= 10 /\ - (-7) <= 10 /\
  Random.eval (CropAndPad.get_params_dependent_on_targets (constant_px (-7)) 10 10)
    sevenths
    = inr (CropAndPad.mk_params (Some [1; 1; 8; 8]) None
             (Some (CropAndPad.NInt 0)) (Some (CropAndPad.NInt 0)) 7 7) /\
  1 <= CropAndPad.result_rows (CropAndPad.mk_params (Some [1; 1; 8; 8]) None
     (Some (CropAndPad.NInt 0)) (Some (CropAndPad.NInt 0)) 7 7) /\ 1 <= CropAndPad.result_cols (CropAndPad.mk_params (Some [1; 1; 8; 8]) None
     (Some (CropAndPad.NInt 0)) (Some (CropAndPad.NInt 0)) 7 7) /\
  forall x1 y1 x2 y2,
    CropAndPad.crop_params (CropAndPad.mk_params (Some [1; 1; 8; 8]) None
     (Some (CropAndPad.NInt 0)) (Some (CropAndPad.NInt 0)) 7 7) = Some [x1; y1; x2; y2] ->
    0 <= x1 < x2 /\ x2 <= 10 /\ 0 <= y1 < y2 /\ y2 <= 10.
Proof.
  split; [reflexivity |]. repeat (split; [lia |]). split; [reflexivity |].
  apply (CropAndPad_px_within_frame (constant_px (-7)) (-7) 10 10 sevenths);
    [reflexivity | lia | lia | lia | lia | reflexivity].
Defined.

(** X3. With a constant [percent = x], [x >= -1], on a frame of at least
    1x1: every descriptor returned has at least one row and one column, and
    its crop rectangle, when there is one, is a non-empty rectangle inside
    the frame. *)
Theorem CropAndPad_percent_within_frame self x height width g d :
  CropAndPad.px self = None ->
  CropAndPad.percent self = Some (CropAndPad.PcFloat x) ->
  (-1 <= x)%Q ->
  1 <= height -> 1 <= width ->
  Random.eval (CropAndPad.get_params_dependent_on_targets self height width) g = inr d ->
  1 <= CropAndPad.result_rows d /\ 1 <= CropAndPad.result_cols d /\
  forall x1 y1 x2 y2,
    CropAndPad.crop_params d = Some [x1; y1; x2; y2] ->
    0 <= x1 < x2 /\ x2 <= width /\ 0 <= y1 < y2 /\ y2 <= height.
Proof.
  intros Hpx Hpc Hx Hh Hw H.
  assert (Hi : forall n, 1 <= n -> - Py.int (x * inject_Z n) <= n).
  { intros n Hn. enough (- n <= Py.int (x * inject_Z n)) by lia.
    apply int_lower; [| lia].
    assert (Hn' : (1 <= inject_Z n)%Q).
    { change 1%Q with (inject_Z 1). now rewrite <- Zle_Qle. }
    rewrite inject_Z_opp. nra. }
  apply (get_params_keeps_one_pixel self height width g d
           (Py.int (x * inject_Z height)) (Py.int (x * inject_Z width))
           (Py.int (x * inject_Z height)) (Py.int (x * inject_Z width)) g);
    auto.
  unfold new_params, CropAndPad._get_percent_params. rewrite Hpx, Hpc. reflexivity.
Qed.

Lemma CropAndPad_percent_within_frame_witness :
  CropAndPad.px (constant_percent (-3 # 4)) = None /\
  CropAndPad.percent (constant_percent (-3 # 4)) = Some (CropAndPad.PcFloat (-3 # 4)) /\
  (-1 <= -3 # 4)%Q /\
  1 <= 10 /\ 1 <= 10 /\
  Random.eval
    (CropAndPad.get_params_dependent_on_targets (constant_percent (-3 # 4)) 10 10)
    sevenths
    = inr (CropAndPad.mk_params (Some [1; 1; 8; 8]) None
             (Some (CropAndPad.NInt 0)) (Some (CropAndPad.NInt 0)) 7 7) /\
  1 <= CropAndPad.result_rows (CropAndPad.mk_params (Some [1; 1; 8; 8]) None
     (Some (CropAndPad.NInt 0)) (Some (CropAndPad.NInt 0)) 7 7) /\ 1 <= CropAndPad.result_cols (CropAndPad.mk_params (Some [1; 1; 8; 8]) None
     (Some (CropAndPad.NInt 0)) (Some (CropAndPad.NInt 0)) 7 7) /\
  forall x1 y1 x2 y2,
    CropAndPad.crop_params (CropAndPad.mk_params (Some [1; 1; 8; 8]) None
     (Some (CropAndPad.NInt 0)) (Some (CropAndPad.NInt 0)) 7 7) = Some [x1; y1; x2; y2] ->
    0 <= x1 < x2 /\ x2 <= 10 /\ 0 <= y1 < y2 /\ y2 <= 10.
Proof.
  split; [reflexivity |]. split; [reflexivity |]. split; [lra |].
  repeat (split; [lia |]). split; [reflexivity |].
  apply (CropAndPad_percent_within_frame (constant_percent (-3 # 4)) (-3 # 4) 10 10
           sevenths);
    [reflexivity | reflexivity | lra | lia | lia | reflexivity].
Defined.

(** ** CropAndPad: sampling of the amounts and of the pad value *)

Lemma run_randrange2 a b g :
  a < b ->
  exists v, Random.run (Random.randrange [a; b]) g = inr (v, Random.skip 1 g) /\
            a <= v < b.
Proof.
  intros H. unfold Random.randrange.
  destruct (Z.leb_spec b a); [lia |].
  rewrite run_bind, run_below, run_ret. eexists. split; [reflexivity |].
  pose proof (floor_draw_range (Random.draw g) (b - a) (draw_range g) ltac:(lia)). lia.
Qed.

Lemma run_randrange2_empty a b g :
  b <= a ->
  Random.run (Random.randrange [a; b]) g =
  inl (Py.ValueError "empty range for randrange()").
Proof.
  intros H. unfold Random.randrange. destruct (Z.leb_spec b a); [reflexivity | lia].
Qed.

(** X4. [_get_px_params] for [px = (a, b)], two integers: with [a < b]
    it returns four amounts in [[a, b)], the end [b] excluded, all four
    equal unless [sample_independently]; with [b <= a] it raises the
    [ValueError] of [random.randrange]. *)
Theorem CropAndPad_px_range self a b g :
  CropAndPad.px self = Some (CropAndPad.PxList [CropAndPad.PxNum a; CropAndPad.PxNum b]) ->
  (a < b ->
   exists v1 v2 v3 v4,
     Random.eval (CropAndPad._get_px_params self) g = inr [v1; v2; v3; v4] /\
     a <= v1 < b /\ a <= v2 < b /\ a <= v3 < b /\ a <= v4 < b /\
     (CropAndPad.sample_independently self = false -> v2 = v1 /\ v3 = v1 /\ v4 = v1)) /\
  (b <= a ->
   Random.eval (CropAndPad._get_px_params self) g =
   inl (Py.ValueError "empty range for randrange()")).
Proof.
  intros Hpx. unfold Random.eval, CropAndPad._get_px_params. rewrite Hpx.
  cbn [CropAndPad.as_int]. rewrite run_bind, run_lift, run_bind, run_lift. split.
  - intros Hab. destruct (CropAndPad.sample_independently self).
    + cbn [seq mapM].
      destruct (run_randrange2 a b g Hab) as (v1 & E1 & H1).
      destruct (run_randrange2 a b (Random.skip 1 g) Hab) as (v2 & E2 & H2).
      destruct (run_randrange2 a b (Random.skip 1 (Random.skip 1 g)) Hab)
        as (v3 & E3 & H3).
      destruct (run_randrange2 a b (Random.skip 1 (Random.skip 1 (Random.skip 1 g))) Hab)
        as (v4 & E4 & H4).
      rewrite run_bind, E1, run_bind, run_bind, E2, run_bind, run_bind, E3.
      rewrite run_bind, run_bind, E4.
      exists v1, v2, v3, v4. split; [reflexivity |].
      repeat (split; [lia |]). discriminate.
    + destruct (run_randrange2 a b g Hab) as (v1 & E1 & H1).
      rewrite run_bind, E1, run_ret.
      exists v1, v1, v1, v1. split; [reflexivity |]. repeat (split; [lia |]). auto.
  - intros Hba. destruct (CropAndPad.sample_independently self).
    + cbn [seq mapM]. rewrite run_bind, run_randrange2_empty by exact Hba. reflexivity.
    + rewrite run_bind, run_randrange2_empty by exact Hba. reflexivity.
Qed.

Lemma CropAndPad_px_range_witness :
  CropAndPad.px (range_px (-3) 5) =
    Some (CropAndPad.PxList [CropAndPad.PxNum (-3); CropAndPad.PxNum 5]) /\
  (-3 < 5 ->
   exists v1 v2 v3 v4,
     Random.eval (CropAndPad._get_px_params (range_px (-3) 5)) sevenths
       = inr [v1; v2; v3; v4] /\
     -3 <= v1 < 5 /\ -3 <= v2 < 5 /\ -3 <= v3 < 5 /\ -3 <= v4 < 5 /\
     (CropAndPad.sample_independently (range_px (-3) 5) = false ->
      v2 = v1 /\ v3 = v1 /\ v4 = v1)) /\
  (5 <= -3 ->
   Random.eval (CropAndPad._get_px_params (range_px (-3) 5)) sevenths =
   inl (Py.ValueError "empty range for randrange()")).
Proof.
  split; [reflexivity |].
  apply (CropAndPad_px_range (range_px (-3) 5) (-3) 5 sevenths). reflexivity.
Defined.

(** [random.uniform(a, b)] lies between [a] and [b], whichever is larger. *)
Lemma uniform_range a b u :
  (0 <= u < 1)%Q -> (Qmin a b <= a + (b - a) * u <= Qmax a b)%Q.
Proof.
  intros [H0 H1]. destruct (Qlt_le_dec a b) as [L | L].
  - rewrite (Q.min_l a b), (Q.max_r a b) by lra. nra.
  - rewrite (Q.min_r a b), (Q.max_l a b) by lra. nra.
Qed.

(** X5. [_get_percent_params] for [percent = (a, b)], two floats: it
    returns four fractions between [min(a, b)] and [max(a, b)], all four
    equal unless [sample_independently]; unlike [px], a pair with [b <= a]
    is not refused. *)
Theorem CropAndPad_percent_range self a b g :
  CropAndPad.percent self =
    Some (CropAndPad.PcList [CropAndPad.PcNum a; CropAndPad.PcNum b]) ->
  exists v1 v2 v3 v4,
    Random.eval (CropAndPad._get_percent_params self) g =
      inr [CropAndPad.PcNum v1; CropAndPad.PcNum v2; CropAndPad.PcNum v3;
           CropAndPad.PcNum v4] /\
    (Qmin a b <= v1 <= Qmax a b)%Q /\ (Qmin a b <= v2 <= Qmax a b)%Q /\
    (Qmin a b <= v3 <= Qmax a b)%Q /\ (Qmin a b <= v4 <= Qmax a b)%Q /\
    (CropAndPad.sample_independently self = false -> v2 = v1 /\ v3 = v1 /\ v4 = v1).
Proof.
  intros Hpc. unfold Random.eval, CropAndPad._get_percent_params. rewrite Hpc.
  cbn [CropAndPad.as_float]. rewrite run_bind, run_lift, run_bind, run_lift.
  destruct (CropAndPad.sample_independently self).
  - cbn [seq mapM].
    rewrite run_bind, run_bind, run_uniform, run_ret.
    rewrite run_bind, run_bind, run_bind, run_uniform, run_ret.
    rewrite run_bind, run_bind, run_bind, run_uniform, run_ret.
    rewrite run_bind, run_bind, run_bind, run_uniform, run_ret.
    do 4 eexists. split; [reflexivity |].
    repeat (split; [apply uniform_range, draw_range |]). discriminate.
  - rewrite run_bind, run_uniform, run_ret.
    do 4 eexists. split; [reflexivity |].
    repeat (split; [apply uniform_range, draw_range |]). auto.
Qed.

Lemma CropAndPad_percent_range_witness :
  CropAndPad.percent (range_percent (1 # 2) (-1 # 4)) =
    Some (CropAndPad.PcList [CropAndPad.PcNum (1 # 2); CropAndPad.PcNum (-1 # 4)]) /\
  exists v1 v2 v3 v4,
    Random.eval (CropAndPad._get_percent_params (range_percent (1 # 2) (-1 # 4)))
      sevenths =
      inr [CropAndPad.PcNum v1; CropAndPad.PcNum v2; CropAndPad.PcNum v3;
           CropAndPad.PcNum v4] /\
    (Qmin (1 # 2) (-1 # 4) <= v1 <= Qmax (1 # 2) (-1 # 4))%Q /\
    (Qmin (1 # 2) (-1 # 4) <= v2 <= Qmax (1 # 2) (-1 # 4))%Q /\
    (Qmin (1 # 2) (-1 # 4) <= v3 <= Qmax (1 # 2) (-1 # 4))%Q /\
    (Qmin (1 # 2) (-1 # 4) <= v4 <= Qmax (1 # 2) (-1 # 4))%Q /\
    (CropAndPad.sample_independently (range_percent (1 # 2) (-1 # 4)) = false ->
     v2 = v1 /\ v3 = v1 /\ v4 = v1).
Proof.
  split; [reflexivity |].
  apply (CropAndPad_percent_range (range_percent (1 # 2) (-1 # 4)) (1 # 2) (-1 # 4)
           sevenths).
  reflexivity.
Defined.

(** X6. [_get_pad_value]: a number is returned as it is and no draw is
    made; a pair of integers [(a, b)] gives an integer in [[a, b]], both
    ends included, and raises [ValueError] when [b < a]; any other pair
    gives a float between the two numbers; a list of another length gives
    one of its members, and the empty list raises [IndexError]. *)
Theorem CropAndPad_pad_value g :
  (forall n,
     Random.run (CropAndPad._get_pad_value (CropAndPad.PadNum n)) g = inr (n, g)) /\
  (forall a b,
     (a <= b ->
      exists v,
        Random.eval (CropAndPad._get_pad_value
                       (CropAndPad.PadList [CropAndPad.NInt a; CropAndPad.NInt b])) g
          = inr (CropAndPad.NInt v) /\ a <= v <= b) /\
     (b < a ->
      Random.eval (CropAndPad._get_pad_value
                     (CropAndPad.PadList [CropAndPad.NInt a; CropAndPad.NInt b])) g
        = inl (Py.ValueError "empty range for randrange()"))) /\
  (forall a b,
     (forall m n, (a, b) <> (CropAndPad.NInt m, CropAndPad.NInt n)) ->
     exists x,
       Random.eval (CropAndPad._get_pad_value (CropAndPad.PadList [a; b])) g
         = inr (CropAndPad.NFloat x) /\
       (Qmin (CropAndPad.to_float a) (CropAndPad.to_float b) <= x
          <= Qmax (CropAndPad.to_float a) (CropAndPad.to_float b))%Q) /\
  (forall l,
     List.length l <> 2%nat -> l <> [] ->
     exists v, Random.eval (CropAndPad._get_pad_value (CropAndPad.PadList l)) g = inr v /\
               In v l) /\
  Random.eval (CropAndPad._get_pad_value (CropAndPad.PadList [])) g = inl Py.IndexError.
Proof.
  split; [reflexivity |]. split; [| split; [| split; [| reflexivity]]].
  - intros a b. split.
    + intros H. unfold Random.eval. cbn [CropAndPad._get_pad_value].
      destruct (run_randint_ex a b g H) as (v & E & Hv).
      rewrite run_bind, E, run_ret. eauto.
    + intros H. unfold Random.eval. cbn [CropAndPad._get_pad_value].
      rewrite run_bind, run_randint_empty by exact H. reflexivity.
  - intros a b Hne.
    assert (E : Random.eval (CropAndPad._get_pad_value (CropAndPad.PadList [a; b])) g =
                inr (CropAndPad.NFloat
                       (CropAndPad.to_float a
                        + (CropAndPad.to_float b - CropAndPad.to_float a) * Random.draw g))).
    { destruct a as [m | x], b as [n | y]; try reflexivity.
      exfalso. now apply (Hne m n). }
    eexists. split; [exact E |].
    pose proof (draw_range g) as [H0 H1].
    set (u := Random.draw g) in *.
    set (fa := CropAndPad.to_float a). set (fb := CropAndPad.to_float b).
    destruct (Qlt_le_dec fa fb) as [L | L].
    + rewrite (Q.min_l fa fb), (Q.max_r fa fb) by lra. nra.
    + rewrite (Q.min_r fa fb), (Q.max_l fa fb) by lra. nra.
  - intros l Hlen Hne.
    assert (E : CropAndPad._get_pad_value (CropAndPad.PadList l) = Random.choice l).
    { destruct l as [| a [| b [| c l]]]; try reflexivity;
        try (cbn [List.length] in Hlen; congruence);
        destruct a; try reflexivity; destruct b; reflexivity. }
    rewrite E. unfold Random.eval.
    destruct (run_choice l g Hne) as (v & Ev & Hin). rewrite Ev. eauto.
Qed.

(** ** RandomResizedCrop: every descriptor fits the frame *)


Section ResizedCropInvariants.

Variable math : Math.t.
Variable self : RandomResizedCrop.t.
Variables rows cols : Z.





End ResizedCropInvariants.



(** ** RandomCropFromBorders and RandomSizedCrop *)

(** [int] of a float that is an integer is that integer. *)
Lemma int_of_integer x n : (x == inject_Z n)%Q -> Py.int x = n.
Proof.
  intros H. destruct (Z.le_gt_cases 0 n) as [Hn | Hn].
  - rewrite int_floor.
    + rewrite H. apply Qfloor_Z.
    + rewrite H. change 0%Q with (inject_Z 0). now rewrite <- Zle_Qle.
  - apply Z.le_antisymm.
    + destruct x as [p q]. unfold Py.int. cbn [Qnum Qden].
      unfold Qeq in H. cbn [Qnum Qden inject_Z] in H.
      assert (p = n * Z.pos q) by lia. subst p.
      rewrite Z.quot_mul by lia. lia.
    + apply int_lower; [rewrite H; apply Qle_refl | lia].
Qed.

Lemma run_randint_same a g :
  Random.run (Random.randint a a) g = inr (a, Random.skip 1 g).
Proof.
  destruct (run_randint_ex a a g ltac:(lia)) as (k & E & Hk).
  rewrite E. do 2 f_equal. lia.
Qed.

(** X9. With the four border fractions 0, on a frame of at least 1x1,
    [RandomCropFromBorders] always returns the whole frame
    [(0, 0, cols, rows)], whatever is drawn. *)
Theorem RandomCropFromBorders_no_borders self rows cols g :
  (RandomCropFromBorders.crop_left self == 0)%Q ->
  (RandomCropFromBorders.crop_right self == 0)%Q ->
  (RandomCropFromBorders.crop_top self == 0)%Q ->
  (RandomCropFromBorders.crop_bottom self == 0)%Q ->
  1 <= rows -> 1 <= cols ->
  Random.eval (RandomCropFromBorders.get_params_dependent_on_targets self rows cols) g =
  inr (RandomCropFromBorders.mk_params 0 cols 0 rows).
Proof.
  intros Hl Hr Ht Hb Hrows Hcols.
  unfold Random.eval, RandomCropFromBorders.get_params_dependent_on_targets.
  rewrite (int_of_integer (_ * inject_Z cols) 0) by (rewrite Hl; ring).
  rewrite (int_of_integer (_ * inject_Z cols) cols) by (rewrite Hr; ring).
  rewrite (int_of_integer (_ * inject_Z rows) 0) by (rewrite Ht; ring).
  rewrite (int_of_integer (_ * inject_Z rows) rows) by (rewrite Hb; ring).
  rewrite run_bind, run_randint_same.
  replace (Z.max (0 + 1) cols) with cols by lia.
  rewrite run_bind, run_randint_same.
  rewrite run_bind, run_randint_same.
  replace (Z.max (0 + 1) rows) with rows by lia.
  rewrite run_bind, run_randint_same. reflexivity.
Qed.

Lemma RandomCropFromBorders_no_borders_witness :
  (RandomCropFromBorders.crop_left no_border_crop == 0)%Q /\
  (RandomCropFromBorders.crop_right no_border_crop == 0)%Q /\
  (RandomCropFromBorders.crop_top no_border_crop == 0)%Q /\
  (RandomCropFromBorders.crop_bottom no_border_crop == 0)%Q /\
  1 <= 5 /\ 1 <= 7 /\
  Random.eval (RandomCropFromBorders.get_params_dependent_on_targets no_border_crop 5 7)
    sevenths =
  inr (RandomCropFromBorders.mk_params 0 7 0 5).
Proof.
  repeat (split; [reflexivity |]). split; [lia |]. split; [lia |].
  apply (RandomCropFromBorders_no_borders no_border_crop 5 7 sevenths);
    [reflexivity | reflexivity | reflexivity | reflexivity | lia | lia].
Defined.

(** X10. [RandomSizedCrop.get_params] with [min_max_height = (lo, hi)],
    [lo <= hi]: it returns a descriptor with [lo <= crop_height <= hi] and
    both starts in [[0, 1)]; [crop_width] is [crop_height] when
    [w2h_ratio = 1], and lies in [[0, crop_height]] when
    [0 <= w2h_ratio <= 1] and [0 <= lo]. *)
Theorem RandomSizedCrop_params_range self g :
  fst (RandomSizedCrop.min_max_height self) <= snd (RandomSizedCrop.min_max_height self) ->
  exists d,
    Random.eval (RandomSizedCrop.get_params self) g = inr d /\
    fst (RandomSizedCrop.min_max_height self) <= RandomSizedCrop.crop_height d
      <= snd (RandomSizedCrop.min_max_height self) /\
    (0 <= RandomSizedCrop.h_start d < 1)%Q /\
    (0 <= RandomSizedCrop.w_start d < 1)%Q /\
    ((RandomSizedCrop.w2h_ratio self == 1)%Q ->
       RandomSizedCrop.crop_width d = RandomSizedCrop.crop_height d) /\
    ((0 <= RandomSizedCrop.w2h_ratio self <= 1)%Q ->
       0 <= fst (RandomSizedCrop.min_max_height self) ->
       0 <= RandomSizedCrop.crop_width d <= RandomSizedCrop.crop_height d).
Proof.
  intros H. unfold Random.eval, RandomSizedCrop.get_params.
  destruct (run_randint_ex _ _ g H) as (ch & E & Hch).
  rewrite run_bind, E, run_bind, run_random, run_bind, run_random, run_ret.
  eexists. split; [reflexivity |].
  cbn [RandomSizedCrop.crop_height RandomSizedCrop.crop_width
       RandomSizedCrop.h_start RandomSizedCrop.w_start].
  split; [exact Hch |]. split; [apply draw_range |]. split; [apply draw_range |].
  split.
  - intros Hone. apply int_of_integer. rewrite Hone. ring.
  - intros Hr Hmin.
    assert (Hc : (0 <= inject_Z ch)%Q).
    { change 0%Q with (inject_Z 0). rewrite <- Zle_Qle. lia. }
    rewrite int_floor by nra. split.
    + apply Qfloor_lower. change (inject_Z 0) with 0%Q. nra.
    + rewrite <- (Qfloor_Z ch) at 2. apply Qfloor_resp_le. nra.
Qed.

Lemma RandomSizedCrop_params_range_witness :
  fst (RandomSizedCrop.min_max_height sized_crop)
    <= snd (RandomSizedCrop.min_max_height sized_crop) /\
  exists d,
    Random.eval (RandomSizedCrop.get_params sized_crop) sevenths = inr d /\
    fst (RandomSizedCrop.min_max_height sized_crop) <= RandomSizedCrop.crop_height d
      <= snd (RandomSizedCrop.min_max_height sized_crop) /\
    (0 <= RandomSizedCrop.h_start d < 1)%Q /\
    (0 <= RandomSizedCrop.w_start d < 1)%Q /\
    ((RandomSizedCrop.w2h_ratio sized_crop == 1)%Q ->
       RandomSizedCrop.crop_width d = RandomSizedCrop.crop_height d) /\
    ((0 <= RandomSizedCrop.w2h_ratio sized_crop <= 1)%Q ->
       0 <= fst (RandomSizedCrop.min_max_height sized_crop) ->
       0 <= RandomSizedCrop.crop_width d <= RandomSizedCrop.crop_height d).
Proof.
  assert (H : fst (RandomSizedCrop.min_max_height sized_crop)
              <= snd (RandomSizedCrop.min_max_height sized_crop))
    by (cbn [sized_crop RandomSizedCrop.min_max_height fst snd]; lia).
  split; [exact H |].
  apply (RandomSizedCrop_params_range sized_crop sevenths H).
Defined.

(** ** RandomCropNearBBox *)

Lemma lookup_missing params key :
  ~ In key (map fst params) ->
  RandomCropNearBBox.lookup params key = inl (Py.KeyError key).
Proof.
  induction params as [| [k v] params IH]; intros H; [reflexivity |].
  cbn [RandomCropNearBBox.lookup]. cbn [map fst In] in H.
  destruct (String.eqb_spec k key) as [-> | Hne]; [tauto |].
  apply IH. tauto.
Qed.

(** X11. When [params] has no entry under [cropping_bbox_key],
    [get_params_dependent_on_targets] raises [KeyError] with that key. *)
Theorem RandomCropNearBBox_missing_key self params g :
  ~ In (RandomCropNearBBox.cropping_bbox_key self) (map fst params) ->
  Random.eval (RandomCropNearBBox.get_params_dependent_on_targets self params) g =
  inl (Py.KeyError (RandomCropNearBBox.cropping_bbox_key self)).
Proof.
  intros H. unfold Random.eval, RandomCropNearBBox.get_params_dependent_on_targets.
  rewrite run_bind, run_lift, lookup_missing by exact H. reflexivity.
Qed.

Lemma RandomCropNearBBox_missing_key_witness :
  ~ In (RandomCropNearBBox.cropping_bbox_key near_bbox)
       (map fst [("test_box"%string, (10, 20, 30, 60))]) /\
  Random.eval
    (RandomCropNearBBox.get_params_dependent_on_targets near_bbox
       [("test_box"%string, (10, 20, 30, 60))]) sevenths =
  inl (Py.KeyError (RandomCropNearBBox.cropping_bbox_key near_bbox)).
Proof.
  assert (H : ~ In (RandomCropNearBBox.cropping_bbox_key near_bbox)
                   (map fst [("test_box"%string, (10, 20, 30, 60))])).
  { simpl. intros [E | []]. discriminate E. }
  split; [exact H |].
  apply (RandomCropNearBBox_missing_key near_bbox
           [("test_box"%string, (10, 20, 30, 60))] sevenths H).
Defined.




(** ** BBoxSafeRandomCrop *)




Section BBoxSafe.

Variable union_of_bboxes : Z -> Z -> list BBoxSafeRandomCrop.box -> Q -> BBoxSafeRandomCrop.box.
Variable self : BBoxSafeRandomCrop.t.
Variables img_h img_w : Z.
Variable g : Random.rng.


End BBoxSafe.



Section BBoxSafeBoxes.

Variable union_of_bboxes : Z -> Z -> list BBoxSafeRandomCrop.box -> Q -> BBoxSafeRandomCrop.box.
Variable self : BBoxSafeRandomCrop.t.
Variables img_h img_w : Z.
Variable b : BBoxSafeRandomCrop.box.
Variable rest : list BBoxSafeRandomCrop.box.
Variable g : Random.rng.


End BBoxSafeBoxes.


(** ** CropNonEmptyMaskIfExists: the mask *)

Lemma existsb_false {A} (P : A -> bool) l :
  existsb P l = false <-> forall x, In x l -> P x = false.
Proof.
  split.
  - intros H x Hin. destruct (P x) eqn:E; [| reflexivity].
    rewrite <- H. symmetry. apply existsb_exists. eauto.
  - intros H. destruct (existsb P l) eqn:E; [| reflexivity].
    apply existsb_exists in E. destruct E as (x & Hin & Hx).
    rewrite (H x Hin) in Hx. discriminate.
Qed.

Section MaskValues.

Import CropNonEmptyMaskIfExists.

Lemma nonzero_false v : nonzero v = false <-> v = 0.
Proof. unfold nonzero. rewrite negb_false_iff. apply Z.eqb_eq. Qed.

(** A mask has no foreground exactly when all its entries are 0. *)
Lemma any_false_iff mask :
  any mask = false <-> forall v, In v (elements mask) -> v = 0.
Proof.
  destruct mask as [a | a]; cbn [any elements].
  - rewrite existsb_false. split.
    + intros H v Hin. apply in_concat in Hin. destruct Hin as (row & Hrow & Hv).
      specialize (H row Hrow). rewrite existsb_false in H.
      apply nonzero_false. auto.
    + intros H row Hrow. apply existsb_false. intros v Hv. apply nonzero_false.
      apply H. apply in_concat. eauto.
  - rewrite existsb_false. split.
    + intros H v Hin. apply in_concat in Hin. destruct Hin as (px & Hpx & Hv).
      apply in_map_iff in Hpx. destruct Hpx as (row & <- & Hrow).
      apply in_concat in Hv. destruct Hv as (p & Hp & Hv).
      specialize (H row Hrow). rewrite existsb_false in H.
      specialize (H p Hp). rewrite existsb_false in H.
      apply nonzero_false. auto.
    + intros H row Hrow. apply existsb_false. intros p Hp.
      apply existsb_false. intros v Hv. apply nonzero_false.
      apply H. apply in_concat. exists (List.concat row). split.
      * apply in_map. exact Hrow.
      * apply in_concat. eauto.
Qed.

Lemma in_elements_zero_out vals mask v :
  In v (elements (zero_out vals mask)) ->
  exists v0, In v0 (elements mask) /\ v = (if isin v0 vals then 0 else v0).
Proof.
  destruct mask as [a | a]; cbn [zero_out elements]; intros Hin.
  - apply in_concat in Hin. destruct Hin as (row' & Hrow & Hv).
    apply in_map_iff in Hrow. destruct Hrow as (row & <- & Hrow).
    apply in_map_iff in Hv. destruct Hv as (v0 & <- & Hv0).
    exists v0. split; [| reflexivity]. apply in_concat. eauto.
  - apply in_concat in Hin. destruct Hin as (fl & Hfl & Hv).
    apply in_map_iff in Hfl. destruct Hfl as (row' & <- & Hrow).
    apply in_map_iff in Hrow. destruct Hrow as (row & <- & Hrow).
    apply in_concat in Hv. destruct Hv as (p' & Hp & Hv).
    apply in_map_iff in Hp. destruct Hp as (p & <- & Hp).
    apply in_map_iff in Hv. destruct Hv as (v0 & <- & Hv0).
    exists v0. split; [| reflexivity]. apply in_concat.
    exists (List.concat row). split; [now apply in_map |]. apply in_concat. eauto.
Qed.

Lemma in_elements_take a chs v :
  In v (elements (Arr3 (take a chs))) -> v = 0 \/ In v (elements (Arr3 a)).
Proof.
  cbn [elements]. unfold take. intros Hin.
  apply in_concat in Hin. destruct Hin as (fl & Hfl & Hv).
  apply in_map_iff in Hfl. destruct Hfl as (row' & <- & Hrow).
  apply in_map_iff in Hrow. destruct Hrow as (row & <- & Hrow).
  apply in_concat in Hv. destruct Hv as (p' & Hp & Hv).
  apply in_map_iff in Hp. destruct Hp as (p & <- & Hp).
  apply in_map_iff in Hv. destruct Hv as (ch & <- & _).
  destruct (nth_in_or_default ch p 0) as [Hn | Hn]; [right | left; exact Hn].
  apply in_concat. exists (List.concat row). split; [now apply in_map |].
  apply in_concat. eauto.
Qed.

(** X15. A mask whose entries are all 0 or among [ignore_values] is all
    background once preprocessed: [mask.any()] is false on what
    [_preprocess_mask] returns, with or without ignored channels. *)
Theorem CropNonEmptyMaskIfExists_ignored_values self vals mask mask' :
  ignore_values self = Some vals ->
  (forall v, In v (elements mask) -> v = 0 \/ isin v vals = true) ->
  _preprocess_mask self mask = inr mask' ->
  any mask' = false.
Proof.
  intros Hign Hall. unfold _preprocess_mask. rewrite Hign.
  destruct (shape2 mask) as [mask_height mask_width].
  assert (Hz : forall v, In v (elements (zero_out vals mask)) -> v = 0).
  { intros v Hin. apply in_elements_zero_out in Hin.
    destruct Hin as (v0 & Hv0 & ->).
    destruct (Hall v0 Hv0) as [-> | ->]; [destruct (isin 0 vals) |]; reflexivity. }
  assert (Hfin : forall m,
            (forall v, In v (elements m) -> v = 0) ->
            (if (mask_height <? height self) || (mask_width <? width self)
             then inl (Py.ValueError "Crop size is larger than image")
             else inr m) = inr mask' -> any mask' = false).
  { intros m Hm H. destruct (_ || _); [discriminate |]. injection H as <-.
    now apply any_false_iff. }
  destruct (zero_out vals mask) as [a | a] eqn:Ez.
  - destruct (ignore_channels self); apply Hfin; exact Hz.
  - destruct (ignore_channels self) as [ign |]; [| apply Hfin; exact Hz].
    destruct (filter _ _) as [| ch chs]; [discriminate |].
    apply Hfin. intros v Hin. apply in_elements_take in Hin.
    destruct Hin as [-> | Hin]; [reflexivity | now apply Hz].
Qed.

End MaskValues.

Lemma CropNonEmptyMaskIfExists_ignored_values_witness :
  CropNonEmptyMaskIfExists.ignore_values ignoring_crop = Some [5] /\
  (forall v, In v (elements one_pixel_mask) ->
     v = 0 \/ CropNonEmptyMaskIfExists.isin v [5] = true) /\
  CropNonEmptyMaskIfExists._preprocess_mask ignoring_crop one_pixel_mask =
    inr (CropNonEmptyMaskIfExists.Arr2 [[0; 0; 0; 0]; [0; 0; 0; 0]; [0; 0; 0; 0]]) /\
  CropNonEmptyMaskIfExists.any
    (CropNonEmptyMaskIfExists.Arr2 [[0; 0; 0; 0]; [0; 0; 0; 0]; [0; 0; 0; 0]]) = false.
Proof.
  assert (Hall : forall v, In v (elements one_pixel_mask) ->
            v = 0 \/ CropNonEmptyMaskIfExists.isin v [5] = true).
  { intros v Hin. simpl in Hin.
    repeat (destruct Hin as [<- | Hin]; [auto |]). contradiction. }
  split; [reflexivity |]. split; [exact Hall |]. split; [reflexivity |].
  apply (CropNonEmptyMaskIfExists_ignored_values ignoring_crop [5] one_pixel_mask);
    [reflexivity | exact Hall | reflexivity].
Defined.

Section MaskUnion.

Import CropNonEmptyMaskIfExists.

(** Element-wise combination keeps the length and combines a test that the
    combining function combines. *)

Lemma zip_with_existsb {A} (f : A -> A -> Py.exn + A) (P : A -> bool) (m : A -> nat) :
  (forall x y z, f x y = inr z -> P z = P x || P y) ->
  (forall x y z, f x y = inr z -> m z = m x) ->
  forall xs ys zs,
    zip_with f xs ys = inr zs ->
    existsb P zs = existsb P xs || existsb P ys /\ map m zs = map m xs.
Proof.
  intros HP Hm. induction xs as [| x xs IH]; intros [| y ys] zs H;
    cbn [zip_with] in H; try discriminate.
  - injection H as <-. split; reflexivity.
  - destruct (f x y) as [e | z] eqn:Ef.
    + destruct (zip_with f xs ys); discriminate.
    + destruct (zip_with f xs ys) as [e | zs'] eqn:Ez; [discriminate |].
      injection H as <-. destruct (IH ys zs' Ez) as [IH1 IH2].
      cbn [existsb map]. rewrite IH1, IH2, (HP _ _ _ Ef), (Hm _ _ _ Ef).
      split; [| reflexivity].
      destruct (P x), (P y), (existsb P xs), (existsb P ys); reflexivity.
Qed.

Lemma map_length_shape {A} (zs xs : list (list A)) :
  map (@List.length A) zs = map (@List.length A) xs ->
  len zs = len xs /\ len (hd [] zs) = len (hd [] xs).
Proof.
  intros H. unfold len. split.
  - rewrite <- (length_map (@List.length A) zs), H. now rewrite length_map.
  - destruct zs, xs; try discriminate; cbn [hd]; [reflexivity |].
    cbn [map] in H. injection H as -> _. reflexivity.
Qed.

Lemma or0_nonzero x y z :
  (inr (Z.lor x y) : Py.exn + Z) = inr z -> nonzero z = nonzero x || nonzero y.
Proof.
  intros H. injection H as <-. unfold nonzero.
  destruct (Z.eqb_spec (Z.lor x y) 0) as [E | E];
    destruct (Z.eqb_spec x 0), (Z.eqb_spec y 0); cbn [negb orb]; try reflexivity.
  all: try (apply Z.lor_eq_0_iff in E; lia).
  exfalso. apply E. apply Z.lor_eq_0_iff. auto.
Qed.

(** [mask |= other] keeps the height and width of [mask], and has
    foreground exactly when one of the two has. *)
Lemma ior_foreground mask other result :
  ior mask other = inr result ->
  shape2 result = shape2 mask /\ any result = any mask || any other.
Proof.
  unfold ior. destruct mask as [a | a], other as [b | b]; try discriminate.
  - destruct (zip_with _ a b) as [e | c] eqn:E; [discriminate |].
    intros H. injection H as <-.
    apply (zip_with_existsb _ (existsb nonzero) (@List.length Z)) in E.
    + destruct E as [E1 E2]. apply map_length_shape in E2. destruct E2 as [L1 L2].
      cbn [shape2 any]. rewrite E1, L1, L2. auto.
    + intros x y z Hz.
      apply (zip_with_existsb _ nonzero (fun _ => O)) in Hz;
        [apply Hz | apply or0_nonzero | reflexivity].
    + intros x y z Hz.
      apply (zip_with_existsb _ nonzero (fun _ => O)) in Hz;
        [| apply or0_nonzero | reflexivity].
      destruct Hz as [_ Hz]. rewrite <- (length_map (fun _ => O) z), Hz.
      now rewrite length_map.
  - destruct (zip_with _ a b) as [e | c] eqn:E; [discriminate |].
    intros H. injection H as <-.
    assert (Hrow : forall x y z : list (list Z),
              zip_with (zip_with (fun x y => inr (Z.lor x y))) x y = inr z ->
              existsb (existsb nonzero) z =
                existsb (existsb nonzero) x || existsb (existsb nonzero) y /\
              List.length z = List.length x).
    { intros x y z Hz.
      apply (zip_with_existsb _ (existsb nonzero) (fun _ => O)) in Hz.
      - destruct Hz as [Hz1 Hz2]. split; [exact Hz1 |].
        rewrite <- (length_map (fun _ => O) z), Hz2. now rewrite length_map.
      - intros p q r Hr.
        apply (zip_with_existsb _ nonzero (fun _ => O)) in Hr;
          [apply Hr | apply or0_nonzero | reflexivity].
      - reflexivity. }
    apply (zip_with_existsb _ (existsb (existsb nonzero)) (@List.length (list Z))) in E.
    + destruct E as [E1 E2]. apply map_length_shape in E2. destruct E2 as [L1 L2].
      cbn [shape2 any]. rewrite E1, L1, L2. auto.
    + intros x y z Hz. apply (Hrow x y z Hz).
    + intros x y z Hz. apply (Hrow x y z Hz).
Qed.

(** The union of [mask] with the preprocessed [rest]. *)
Lemma union_masks_any self : forall rest mask result,
  union_masks self mask rest = inr result ->
  shape2 result = shape2 mask /\
  (any result = true <->
   any mask = true \/
   exists m m', In m rest /\ _preprocess_mask self m = inr m' /\ any m' = true).
Proof.
  induction rest as [| m rest IH]; intros mask result H; cbn [union_masks] in H.
  - injection H as <-. split; [reflexivity |]. split; [auto |].
    intros [E | (m & m' & [] & _)]. exact E.
  - destruct (_preprocess_mask self m) as [e | m'] eqn:Em; [discriminate |].
    destruct (ior mask m') as [e | mask'] eqn:E; [discriminate |].
    apply ior_foreground in E. destruct E as [Es Ea].
    destruct (IH _ _ H) as [IHs IHa]. split; [congruence |].
    rewrite IHa, Ea, orb_true_iff. split.
    + intros [[E | E] | (m1 & m1' & Hin & Hp & Hany)]; [auto | |].
      * right. exists m, m'. split; [left; reflexivity | auto].
      * right. exists m1, m1'. split; [right; exact Hin | auto].
    + intros [E | (m1 & m1' & [<- | Hin] & Hp & Hany)]; [auto | |].
      * rewrite Em in Hp. injection Hp as <-. auto.
      * right. exists m1, m1'. auto.
Qed.

(** The mask a crop is sampled from has room for the crop, whichever of
    [mask] and [masks] it comes from. *)
Lemma preprocessed_fits self kw mask :
  preprocessed self kw = inr mask ->
  height self <= fst (shape2 mask) /\ width self <= snd (shape2 mask).
Proof.
  unfold preprocessed. destruct (kw_mask kw) as [m |].
  - intros H. apply preprocess_mask_fits in H. destruct H as (-> & H). exact H.
  - destruct (kw_masks kw) as [[| m0 rest] |]; try discriminate.
    destruct (_preprocess_mask self m0) as [e | m1] eqn:E; [discriminate |].
    intros H. apply union_masks_any in H. destruct H as [H _]. rewrite H.
    apply preprocess_mask_fits in E. destruct E as (-> & E). exact E.
Qed.

(** X16. Called with [masks] and no [mask], the mask the crop is sampled
    from has the height and width of the first mask, has room for the crop,
    and has foreground exactly when one of the masks has foreground once
    preprocessed. *)
Theorem CropNonEmptyMaskIfExists_masks_union self kw m0 rest mask :
  kw_mask kw = None -> kw_masks kw = Some (m0 :: rest) ->
  preprocessed self kw = inr mask ->
  shape2 mask = shape2 m0 /\
  height self <= fst (shape2 mask) /\ width self <= snd (shape2 mask) /\
  (any mask = true <->
   exists m m', In m (m0 :: rest) /\ _preprocess_mask self m = inr m' /\ any m' = true).
Proof.
  intros Hm Hms Hpre. destruct (preprocessed_fits _ _ _ Hpre) as [Hh Hw].
  unfold preprocessed in Hpre. rewrite Hm, Hms in Hpre.
  destruct (_preprocess_mask self m0) as [e | m1] eqn:E0; [discriminate |].
  apply union_masks_any in Hpre. destruct Hpre as [Hs Ha].
  destruct (preprocess_mask_fits _ _ _ E0) as [Hs0 _].
  split; [congruence |]. split; [exact Hh |]. split; [exact Hw |].
  rewrite Ha. split.
  - intros [E | (m & m' & Hin & Hp & Hany)].
    + exists m0, m1. split; [left; reflexivity | auto].
    + exists m, m'. split; [right; exact Hin | auto].
  - intros (m & m' & [<- | Hin] & Hp & Hany).
    + rewrite E0 in Hp. injection Hp as <-. auto.
    + right. exists m, m'. auto.
Qed.

(** X18. [_preprocess_mask] on a two-dimensional mask, or with no ignored
    channels: a mask lower or narrower than the crop raises [ValueError];
    any other mask is returned with its height and width, and as it is when
    there are no ignored values. *)
Theorem CropNonEmptyMaskIfExists_crop_size_check self mask :
  (forall a, mask = Arr3 a -> ignore_channels self = None) ->
  (fst (shape2 mask) < height self \/ snd (shape2 mask) < width self ->
   _preprocess_mask self mask = inl (Py.ValueError "Crop size is larger than image")) /\
  (height self <= fst (shape2 mask) -> width self <= snd (shape2 mask) ->
   exists mask',
     _preprocess_mask self mask = inr mask' /\ shape2 mask' = shape2 mask /\
     (ignore_values self = None -> mask' = mask)).
Proof.
  intros H2d. unfold _preprocess_mask.
  destruct (shape2 mask) as [mask_height mask_width] eqn:Eshape. cbn [fst snd].
  set (m1 := match ignore_values self with
             | Some vals => zero_out vals mask
             | None => mask
             end).
  assert (E1 : shape2 m1 = (mask_height, mask_width)).
  { subst m1. destruct (ignore_values self); [rewrite zero_out_shape |]; exact Eshape. }
  assert (Em : match m1, ignore_channels self with
               | Arr3 a, Some ign =>
                   match filter (fun ch => negb (isin (Z.of_nat ch) ign))
                           (seq 0 (channels a)) with
                   | [] => inl Py.TypeError
                   | _ :: _ =>
                       inr (Arr3 (take a
                              (filter (fun ch => negb (isin (Z.of_nat ch) ign))
                                 (seq 0 (channels a)))))
                   end
               | _, _ => inr m1
               end = (inr m1 : Py.exn + ndarray)).
  { destruct m1 as [a | a] eqn:E; [destruct (ignore_channels self); reflexivity |].
    destruct mask as [b | b].
    - subst m1. destruct (ignore_values self); discriminate E.
    - rewrite (H2d b eq_refl). reflexivity. }
  rewrite Em. split.
  - intros Hsmall.
    destruct (Z.ltb_spec mask_height (height self));
      destruct (Z.ltb_spec mask_width (width self)); cbn [orb]; (reflexivity || lia).
  - intros Hh Hw.
    destruct (Z.ltb_spec mask_height (height self));
      destruct (Z.ltb_spec mask_width (width self)); cbn [orb]; try lia.
    exists m1. split; [reflexivity |]. split; [exact E1 |].
    intros Hnone. subst m1. rewrite Hnone. reflexivity.
Qed.

(** X17. Called with no [mask] and with [masks] missing or empty,
    [update_params] raises [RuntimeError] before anything is drawn. *)
Theorem CropNonEmptyMaskIfExists_missing_mask self kw g :
  kw_mask kw = None ->
  kw_masks kw = None \/ kw_masks kw = Some [] ->
  Random.eval (update_params self kw) g =
  inl (Py.RuntimeError "Can not find mask for CropNonEmptyMaskIfExists").
Proof.
  intros Hm Hms. unfold Random.eval, update_params, preprocessed.
  rewrite run_bind, run_lift, Hm. destruct Hms as [-> | ->]; reflexivity.
Qed.

End MaskUnion.

Lemma CropNonEmptyMaskIfExists_masks_union_witness :
  CropNonEmptyMaskIfExists.kw_mask two_masks = None /\
  CropNonEmptyMaskIfExists.kw_masks two_masks = Some [one_pixel_mask; corner_mask] /\
  CropNonEmptyMaskIfExists.preprocessed crop_2x2 two_masks =
    inr (CropNonEmptyMaskIfExists.Arr2 [[1; 0; 0; 0]; [0; 0; 5; 0]; [0; 0; 0; 0]]) /\
  CropNonEmptyMaskIfExists.shape2
    (CropNonEmptyMaskIfExists.Arr2 [[1; 0; 0; 0]; [0; 0; 5; 0]; [0; 0; 0; 0]])
    = CropNonEmptyMaskIfExists.shape2 one_pixel_mask /\
  CropNonEmptyMaskIfExists.height crop_2x2
    <= fst (CropNonEmptyMaskIfExists.shape2
              (CropNonEmptyMaskIfExists.Arr2 [[1; 0; 0; 0]; [0; 0; 5; 0]; [0; 0; 0; 0]])) /\
  CropNonEmptyMaskIfExists.width crop_2x2
    <= snd (CropNonEmptyMaskIfExists.shape2
              (CropNonEmptyMaskIfExists.Arr2 [[1; 0; 0; 0]; [0; 0; 5; 0]; [0; 0; 0; 0]])) /\
  (CropNonEmptyMaskIfExists.any
     (CropNonEmptyMaskIfExists.Arr2 [[1; 0; 0; 0]; [0; 0; 5; 0]; [0; 0; 0; 0]]) = true <->
   exists m m',
     In m [one_pixel_mask; corner_mask] /\
     CropNonEmptyMaskIfExists._preprocess_mask crop_2x2 m = inr m' /\
     CropNonEmptyMaskIfExists.any m' = true).
Proof.
  split; [reflexivity |]. split; [reflexivity |]. split; [reflexivity |].
  apply (CropNonEmptyMaskIfExists_masks_union crop_2x2 two_masks one_pixel_mask
           [corner_mask]); reflexivity.
Defined.

Lemma CropNonEmptyMaskIfExists_crop_size_check_witness :
  (forall a, one_pixel_mask = CropNonEmptyMaskIfExists.Arr3 a ->
     CropNonEmptyMaskIfExists.ignore_channels crop_2x2 = None) /\
  (fst (CropNonEmptyMaskIfExists.shape2 one_pixel_mask)
     < CropNonEmptyMaskIfExists.height crop_2x2 \/
   snd (CropNonEmptyMaskIfExists.shape2 one_pixel_mask)
     < CropNonEmptyMaskIfExists.width crop_2x2 ->
   CropNonEmptyMaskIfExists._preprocess_mask crop_2x2 one_pixel_mask =
   inl (Py.ValueError "Crop size is larger than image")) /\
  (CropNonEmptyMaskIfExists.height crop_2x2
     <= fst (CropNonEmptyMaskIfExists.shape2 one_pixel_mask) ->
   CropNonEmptyMaskIfExists.width crop_2x2
     <= snd (CropNonEmptyMaskIfExists.shape2 one_pixel_mask) ->
   exists mask',
     CropNonEmptyMaskIfExists._preprocess_mask crop_2x2 one_pixel_mask = inr mask' /\
     CropNonEmptyMaskIfExists.shape2 mask'
       = CropNonEmptyMaskIfExists.shape2 one_pixel_mask /\
     (CropNonEmptyMaskIfExists.ignore_values crop_2x2 = None ->
      mask' = one_pixel_mask)).
Proof.
  assert (H : forall a, one_pixel_mask = CropNonEmptyMaskIfExists.Arr3 a ->
                CropNonEmptyMaskIfExists.ignore_channels crop_2x2 = None)
    by (intros a _; reflexivity).
  split; [exact H |].
  apply (CropNonEmptyMaskIfExists_crop_size_check crop_2x2 one_pixel_mask H).
Defined.

Lemma CropNonEmptyMaskIfExists_missing_mask_witness :
  CropNonEmptyMaskIfExists.kw_mask no_masks = None /\
  (CropNonEmptyMaskIfExists.kw_masks no_masks = None \/
   CropNonEmptyMaskIfExists.kw_masks no_masks = Some []) /\
  Random.eval (CropNonEmptyMaskIfExists.update_params crop_2x2 no_masks) sevenths =
  inl (Py.RuntimeError "Can not find mask for CropNonEmptyMaskIfExists").
Proof.
  split; [reflexivity |]. split; [left; reflexivity |].
  apply (CropNonEmptyMaskIfExists_missing_mask crop_2x2 no_masks sevenths);
    [reflexivity | left; reflexivity].
Defined.

(** ** CropNonEmptyMaskIfExists: the foreground pixel *)

Section MaskForeground.

Import CropNonEmptyMaskIfExists.

Lemma row_nonzero_complete row : forall x0,
  existsb nonzero row = true -> row_nonzero x0 row <> [].
Proof.
  induction row as [| v row IH]; intros x0 H; [discriminate |].
  cbn [existsb row_nonzero] in *. destruct (nonzero v); [discriminate |].
  apply IH. exact H.
Qed.

Lemma row_nonzero_none row : forall x0,
  existsb nonzero row = false -> row_nonzero x0 row = [].
Proof.
  induction row as [| v row IH]; intros x0 H; [reflexivity |].
  cbn [existsb row_nonzero] in *. destruct (nonzero v); [discriminate |].
  apply IH. exact H.
Qed.

(** [np.argwhere] finds an entry exactly when the array has a non-zero
    one. *)
Lemma argwhere_from_empty_iff a : forall y0,
  argwhere_from y0 a = [] <-> existsb (existsb nonzero) a = false.
Proof.
  induction a as [| row a IH]; intros y0; cbn [argwhere_from existsb];
    [tauto |].
  rewrite orb_false_iff, <- (IH (y0 + 1)). split.
  - intros H. apply app_eq_nil in H. destruct H as [H1 H2]. split; [| exact H2].
    destruct (existsb nonzero row) eqn:E; [| reflexivity].
    apply (row_nonzero_complete row 0) in E.
    destruct (row_nonzero 0 row); [contradiction | discriminate].
  - intros [H1 H2]. rewrite (row_nonzero_none _ _ H1), H2. reflexivity.
Qed.

Lemma sum_nonneg px : forall acc,
  (forall v, In v px -> 0 <= v) ->
  acc <= fold_left Z.add px acc /\
  (existsb nonzero px = true -> acc < fold_left Z.add px acc).
Proof.
  induction px as [| v px IH]; intros acc H; cbn [fold_left existsb].
  - split; [lia | discriminate].
  - assert (Hv : 0 <= v) by (apply H; left; reflexivity).
    destruct (IH (acc + v) (fun w Hw => H w (or_intror Hw))) as [I1 I2].
    split; [lia |]. intros E. apply orb_true_iff in E. destruct E as [E | E].
    + unfold nonzero in E. rewrite negb_true_iff in E. apply Z.eqb_neq in E. lia.
    + specialize (I2 E). lia.
Qed.

(** Summing the channels of a mask without negative entries keeps its
    foreground. *)
Lemma flat_keeps_foreground mask :
  (forall a, mask = Arr3 a -> forall v, In v (elements mask) -> 0 <= v) ->
  any mask = true -> existsb (existsb nonzero) (flat mask) = true.
Proof.
  destruct mask as [a | a]; cbn [any flat]; [auto |].
  intros Hpos Hany. specialize (Hpos a eq_refl). cbn [elements] in Hpos.
  apply existsb_exists in Hany. destruct Hany as (row & Hrow & Hany).
  apply existsb_exists in Hany. destruct Hany as (px & Hpx & Hany).
  apply existsb_exists. exists (map (fun px => fold_left Z.add px 0) row).
  split; [apply in_map_iff; exists row; auto |].
  apply existsb_exists. exists (fold_left Z.add px 0).
  split; [apply in_map_iff; exists px; auto |].
  assert (Hp : forall v, In v px -> 0 <= v).
  { intros v Hv. apply Hpos. apply in_concat. exists (List.concat row). split.
    - apply in_map_iff. exists row. auto.
    - apply in_concat. exists px. auto. }
  destruct (sum_nonneg px 0 Hp) as [_ Hs]. specialize (Hs Hany).
  unfold nonzero. rewrite negb_true_iff. apply Z.eqb_neq. lia.
Qed.

(** X19. For a preprocessed mask with foreground that is two-dimensional,
    or has no negative entry, and a crop of at least 1x1: a rectangle of
    [height] by [width] is always returned, it lies in the mask, and it
    covers a pixel [(y, x)] at which the mask, summed over its channels, is
    not 0. *)
Theorem CropNonEmptyMaskIfExists_foreground_total self kw mask g :
  preprocessed self kw = inr mask ->
  rectangular mask = true ->
  (forall a, mask = Arr3 a -> forall v, In v (elements mask) -> 0 <= v) ->
  any mask = true ->
  1 <= height self -> 1 <= width self ->
  exists d y x row v,
    Random.eval (update_params self kw) g = inr d /\
    nth_error (flat mask) (Z.to_nat y) = Some row /\
    nth_error row (Z.to_nat x) = Some v /\ v <> 0 /\
    0 <= y /\ 0 <= x /\
    x_min d <= x < x_max d /\ y_min d <= y < y_max d /\
    0 <= x_min d /\ x_max d <= snd (shape2 mask) /\
    0 <= y_min d /\ y_max d <= fst (shape2 mask) /\
    x_max d - x_min d = width self /\ y_max d - y_min d = height self.
Proof.
  intros Hpre Hrect Hpos Hany Hh1 Hw1.
  destruct (preprocessed_fits _ _ _ Hpre) as [Hh Hw].
  assert (Hne : argwhere (flat mask) <> []).
  { unfold argwhere. intros E. apply argwhere_from_empty_iff in E.
    rewrite (flat_keeps_foreground mask Hpos Hany) in E. discriminate. }
  destruct (foreground_crop_returns self kw mask g Hpre Hh Hw Hany Hne Hw1 Hh1) as [d Hd].
  destruct (foreground_crop self kw mask g Hpre Hrect Hh Hw Hany d Hd)
    as (y & x & _ & Hin & Hx & Hy & Hxm & Hym & Ex & Ey).
  destruct (argwhere_sound _ _ _ Hin) as (Hy0 & Hx0 & row & v & _ & _ & Hr & Hn & Hv).
  exists d, y, x, row, v. repeat (split; [first [assumption | lia] |]). lia.
Qed.

(** X20. Channels that cancel: when a three-dimensional mask has
    foreground and the channels of every pixel sum to 0, the summed mask has
    no pixel to choose and [update_params] raises the [IndexError] of
    [random.choice] on an empty sequence. *)
Theorem CropNonEmptyMaskIfExists_cancelling_channels self kw a g :
  preprocessed self kw = inr (Arr3 a) ->
  any (Arr3 a) = true ->
  (forall row px, In row a -> In px row -> fold_left Z.add px 0 = 0) ->
  Random.eval (update_params self kw) g = inl Py.IndexError.
Proof.
  intros Hpre Hany Hsum.
  assert (E : argwhere (flat (Arr3 a)) = []).
  { unfold argwhere. apply argwhere_from_empty_iff.
    destruct (existsb _ _) eqn:Ex; [| reflexivity].
    apply existsb_exists in Ex. destruct Ex as (r & Hr & Ex).
    apply existsb_exists in Ex. destruct Ex as (s & Hs & Ex).
    cbn [flat] in Hr. apply in_map_iff in Hr. destruct Hr as (row & <- & Hrow).
    apply in_map_iff in Hs. destruct Hs as (px & <- & Hpx).
    rewrite (Hsum row px Hrow Hpx) in Ex. discriminate. }
  unfold Random.eval, update_params.
  rewrite run_bind, run_lift, Hpre.
  destruct (shape2 (Arr3 a)) as [mask_height mask_width].
  rewrite run_bind, Hany, E, run_bind, run_choice_empty. reflexivity.
Qed.

End MaskForeground.

Lemma CropNonEmptyMaskIfExists_foreground_total_witness :
  CropNonEmptyMaskIfExists.preprocessed crop_1x1
    (CropNonEmptyMaskIfExists.mk_kwargs (Some two_channel_mask) None)
    = inr two_channel_mask /\
  CropNonEmptyMaskIfExists.rectangular two_channel_mask = true /\
  (forall a, two_channel_mask = CropNonEmptyMaskIfExists.Arr3 a ->
     forall v, In v (elements two_channel_mask) -> 0 <= v) /\
  CropNonEmptyMaskIfExists.any two_channel_mask = true /\
  1 <= CropNonEmptyMaskIfExists.height crop_1x1 /\
  1 <= CropNonEmptyMaskIfExists.width crop_1x1 /\
  exists d y x row v,
    Random.eval
      (CropNonEmptyMaskIfExists.update_params crop_1x1
         (CropNonEmptyMaskIfExists.mk_kwargs (Some two_channel_mask) None)) sevenths
      = inr d /\
    nth_error (CropNonEmptyMaskIfExists.flat two_channel_mask) (Z.to_nat y) = Some row /\
    nth_error row (Z.to_nat x) = Some v /\ v <> 0 /\
    0 <= y /\ 0 <= x /\
    CropNonEmptyMaskIfExists.x_min d <= x < CropNonEmptyMaskIfExists.x_max d /\
    CropNonEmptyMaskIfExists.y_min d <= y < CropNonEmptyMaskIfExists.y_max d /\
    0 <= CropNonEmptyMaskIfExists.x_min d /\
    CropNonEmptyMaskIfExists.x_max d
      <= snd (CropNonEmptyMaskIfExists.shape2 two_channel_mask) /\
    0 <= CropNonEmptyMaskIfExists.y_min d /\
    CropNonEmptyMaskIfExists.y_max d
      <= fst (CropNonEmptyMaskIfExists.shape2 two_channel_mask) /\
    CropNonEmptyMaskIfExists.x_max d - CropNonEmptyMaskIfExists.x_min d
      = CropNonEmptyMaskIfExists.width crop_1x1 /\
    CropNonEmptyMaskIfExists.y_max d - CropNonEmptyMaskIfExists.y_min d
      = CropNonEmptyMaskIfExists.height crop_1x1.
Proof.
  assert (Hpos : forall a, two_channel_mask = CropNonEmptyMaskIfExists.Arr3 a ->
            forall v, In v (elements two_channel_mask) -> 0 <= v).
  { intros a _ v Hin. simpl in Hin.
    repeat (destruct Hin as [<- | Hin]; [lia |]). contradiction. }
  assert (H1 : 1 <= 1) by lia.
  split; [reflexivity |]. split; [reflexivity |]. split; [exact Hpos |].
  split; [reflexivity |]. split; [exact H1 |]. split; [exact H1 |].
  apply (CropNonEmptyMaskIfExists_foreground_total crop_1x1
           (CropNonEmptyMaskIfExists.mk_kwargs (Some two_channel_mask) None)
           two_channel_mask sevenths);
    [reflexivity | reflexivity | exact Hpos | reflexivity | exact H1 | exact H1].
Defined.

Lemma CropNonEmptyMaskIfExists_cancelling_channels_witness :
  CropNonEmptyMaskIfExists.preprocessed crop_1x1
    (CropNonEmptyMaskIfExists.mk_kwargs (Some cancelling_mask) None)
    = inr (CropNonEmptyMaskIfExists.Arr3 [[[1; -1]]]) /\
  CropNonEmptyMaskIfExists.any (CropNonEmptyMaskIfExists.Arr3 [[[1; -1]]]) = true /\
  (forall row px, In row [[[1; -1]]] -> In px row -> fold_left Z.add px 0 = 0) /\
  Random.eval
    (CropNonEmptyMaskIfExists.update_params crop_1x1
       (CropNonEmptyMaskIfExists.mk_kwargs (Some cancelling_mask) None)) sevenths
    = inl Py.IndexError.
Proof.
  assert (Hsum : forall row px,
            In row [[[1; -1]]] -> In px row -> fold_left Z.add px 0 = 0).
  { intros row px [<- | []] [<- | []]. reflexivity. }
  split; [reflexivity |]. split; [reflexivity |]. split; [exact Hsum |].
  apply (CropNonEmptyMaskIfExists_cancelling_channels crop_1x1
           (CropNonEmptyMaskIfExists.mk_kwargs (Some cancelling_mask) None)
           [[[1; -1]]] sevenths);
    [reflexivity | reflexivity | exact Hsum].
Defined.
